(** * The Kubernetes worker of virtual-host-gatherer

    A shallow embedding of [lib/gatherer/modules/Kubernetes.py]: the
    normalisation of one node (memory capacity, architecture), the worker's
    configuration, connection setup, run and teardown, together with the
    properties of them that the specification states.

    Python strings are modelled as byte strings ([string]): an ASCII text
    is the list of its characters, any other text the list of the bytes of
    its UTF-8 encoding.  The classes [\d] and [\w] of the pattern are
    modelled on the ASCII range, where they are [[0-9]] and [[a-zA-Z0-9_]]
    whether the pattern is compiled for bytes or for text; what the pattern
    does on a character outside ASCII is outside the model, and every
    property that depends on it is stated for ASCII strings ([is_ascii]).
    Python integers are modelled as [Z], with the limit that [int] puts on
    the number of digits of a string it converts; Python floats are the
    IEEE 754 binary64 numbers of [SpecFloat].  The libraries the module
    calls ([base64], [tempfile], the kubernetes client) and the answer of
    the operating system to the removal of a new temporary file are
    parameters of the model; the file system, the shared transport
    configuration and the log are components of an explicit state. *)

From Stdlib Require Import ZArith Ascii String List Lia SpecFloat.
From stdpp Require Import base option list gmap strings.

Local Open Scope string_scope.
Local Open Scope list_scope.
Local Open Scope Z_scope.

(** ** Exceptions and results *)

(** The exception classes the module can meet.  [ApiException] and
    [HTTPError] are the two that [run] catches; the others are listed by
    the place that raises them. *)
Inductive exn : Type :=
| ApiException (status : Z)      (* kubernetes.client.rest.ApiException *)
| HTTPError                      (* urllib3.exceptions.HTTPError *)
| AttributeError (msg : string)  (* _validate_parameters; a missing attribute *)
| TypeError                      (* re.match on None *)
| ValueError                     (* int() of a string it does not convert *)
| OverflowError                  (* an integer quotient too large for a float *)
| NameError (name : string)      (* a global name that is not defined *)
| BinasciiError                  (* base64.b64decode on malformed input *)
| OSError (errno : Z)            (* os.remove, tempfile *)
| ExternalError (what : string). (* anything else raised by a library *)

Inductive result (A : Type) : Type :=
| Ok (a : A)
| Raise (e : exn).
Arguments Ok {A} a.
Arguments Raise {A} e.

Definition rbind {A B} (r : result A) (k : A -> result B) : result B :=
  match r with
  | Ok a => k a
  | Raise e => Raise e
  end.

Declare Scope result_scope.
Delimit Scope result_scope with result.
Notation "x <- r ;; k" := (rbind r (fun x => k))
  (at level 100, r at next level, right associativity) : result_scope.

(** ** Character classes of the [re] module, on the ASCII range *)

Definition in_range (lo hi c : ascii) : bool :=
  ((N_of_ascii lo <=? N_of_ascii c) && (N_of_ascii c <=? N_of_ascii hi))%N.

(** [\d] *)
Definition is_digit (c : ascii) : bool := in_range "0" "9" c.

(** [\w] *)
Definition is_word (c : ascii) : bool :=
  in_range "a" "z" c || in_range "A" "Z" c || is_digit c || Ascii.eqb c "_".

Definition newline : ascii := "010"%char.

(** ** The pattern [^(\d+)(\w+)$]

    [re.match] is a backtracking matcher.  A greedy [+] first takes the
    longest run of characters of its class and gives characters back one
    at a time, never going below one, until the rest of the pattern
    matches. *)

Fixpoint class_run (p : ascii -> bool) (l : list ascii) : nat :=
  match l with
  | c :: t => if p c then S (class_run p t) else 0%nat
  | [] => 0%nat
  end.

Fixpoint longest_first {A} (k : nat) (f : nat -> option A) : option A :=
  match k with
  | O => None
  | S k' =>
      match f k with
      | Some x => Some x
      | None => longest_first k' f
      end
  end.

(** [$] without [re.MULTILINE]: the end of the string, or the position just
    before a newline that ends the string. *)
Definition at_dollar (l : list ascii) : bool :=
  match l with
  | [] => true
  | [c] => Ascii.eqb c newline
  | _ => false
  end.

(** [(\w+)$] at the start of [l]: the text of the group. *)
Definition match_word_end (l : list ascii) : option (list ascii) :=
  longest_first (class_run is_word l)
    (fun j => if at_dollar (drop j l) then Some (take j l) else None).

(** [^(\d+)(\w+)$] on [l]: the texts of the two groups. *)
Definition reg_match_list (l : list ascii) : option (list ascii * list ascii) :=
  longest_first (class_run is_digit l)
    (fun k =>
       match match_word_end (drop k l) with
       | Some u => Some (take k l, u)
       | None => None
       end).

(** [reg.match(s)], and [.groups()] of the match object when there is one. *)
Definition reg_match (s : string) : option (string * string) :=
  match reg_match_list (list_ascii_of_string s) with
  | Some (m, u) => Some (string_of_list_ascii m, string_of_list_ascii u)
  | None => None
  end.

(** ** Python values held by the variable [memory] *)

Inductive pyval : Type :=
| PyInt (z : Z)
| PyFloat (f : spec_float)
| PyStr (s : string).

Definition digit_value (c : ascii) : Z := Z.of_N (N_of_ascii c) - 48.

Fixpoint int_of_digits (acc : Z) (l : list ascii) : option Z :=
  match l with
  | [] => Some acc
  | c :: t => if is_digit c then int_of_digits (10 * acc + digit_value c) t else None
  end.

(** The largest number of digits that [int] converts from a string (the
    default of [sys.int_max_str_digits]); a longer string is refused. *)
Definition max_str_digits : Z := 4300.

(** [int(s)] for a string: decimal digits only (the only strings the module
    converts are first groups of the pattern), and no more than
    [max_str_digits] of them, leading zeros included; anything else is a
    [ValueError]. *)
Definition int_of_str (s : string) : result Z :=
  match list_ascii_of_string s with
  | [] => Raise ValueError
  | l => match int_of_digits 0 l with
         | Some z =>
             if Z.of_nat (String.length s) <=? max_str_digits
             then Ok z else Raise ValueError
         | None => Raise ValueError
         end
  end.

(** [int(f)] for a float: truncation towards zero. *)
Definition int_of_float (f : spec_float) : result Z :=
  match f with
  | S754_zero _ => Ok 0
  | S754_finite s m e =>
      let a := if (0 <=? e) then Z.pos m * 2 ^ e else Z.pos m / 2 ^ (- e) in
      Ok (if s then - a else a)
  | S754_infinity _ => Raise OverflowError
  | S754_nan => Raise ValueError
  end.

(** [int(v)] *)
Definition py_int (v : pyval) : result Z :=
  match v with
  | PyInt z => Ok z
  | PyFloat f => int_of_float f
  | PyStr s => int_of_str s
  end.

(** [n / 1024] under [from __future__ import division]: true division of
    two integers gives the binary64 number nearest to the quotient (ties
    to even), and raises [OverflowError] when that is out of range.  Since
    [1024 = 2 ^ 10] the quotient is [n * 2 ^ (-10)]. *)
Definition truediv_1024 (n : Z) : result spec_float :=
  match binary_normalize 53 1024 n (-10) false with
  | S754_infinity _ => Raise OverflowError
  | f => Ok f
  end.

(** ** Normalisation of one node (the body of the loop of [run]) *)

(** Lines 116-123 and the [int(memory)] of line 138, for the value of
    [node.status.capacity.get('memory')]. *)
Definition ram_mb (capacity_memory : option string) : result Z :=
  match capacity_memory with
  | None => Raise TypeError
  | Some s =>
      (memory <-
         match reg_match s with
         | None => Ok (PyInt 0)
         | Some (memory, unit) =>
             let memory := PyStr memory in
             memory <- (if String.eqb unit "Ki"
                        then (n <- py_int memory ;;
                              q <- truediv_1024 n ;;
                              Ok (PyFloat q))
                        else Ok memory) ;;
             (if String.eqb unit "Gi"
              then (n <- py_int memory ;; Ok (PyInt (n * 1024)))
              else Ok memory)
         end ;;
       py_int memory)%result
  end.

(** [str.lower] *)
Definition lower_char (c : ascii) : ascii :=
  if in_range "A" "Z" c then ascii_of_N (N_of_ascii c + 32) else c.

Fixpoint lower (s : string) : string :=
  match s with
  | EmptyString => EmptyString
  | String c t => String (lower_char c) (lower t)
  end.

(** Lines 124-126. *)
Definition normalize_arch (arch : string) : string :=
  if String.eqb (lower arch) "amd64" then "x86_64" else arch.

(** ** The worker, the transport configuration and the file system *)

(** The instance attributes.  [__init__] sets six of them to [None];
    [kubeconfig] and [context] do not exist before [set_node]. *)
Inductive attr : Type :=
| Unset
| Attr (v : option string).

Record worker : Type := Worker {
  url : option string;
  user : option string;
  password : option string;
  client_cert : option string;
  client_key : option string;
  ca_cert : option string;
  kubeconfig : attr;
  context : attr
}.

(** [__init__] *)
Definition init_worker : worker :=
  Worker None None None None None None Unset Unset.

(** [kubernetes.client.configuration], the transport configuration shared by
    the whole process: the attributes the module writes or reads. *)
Module Configuration.
Record t : Type := Make {
  host : option string;
  user : option string;
  passwd : option string;
  ssl_ca_cert : option string;
  cert_file : option string;
  key_file : option string
}.

(** [Configuration.__init__()] of the client library: the default host, no
    credentials, no certificate paths. *)
Definition init : t :=
  Make (Some "https://localhost") None None None None None.

Definition set_host v (c : t) : t :=
  Make v (user c) (passwd c) (ssl_ca_cert c) (cert_file c) (key_file c).
Definition set_user v (c : t) : t :=
  Make (host c) v (passwd c) (ssl_ca_cert c) (cert_file c) (key_file c).
Definition set_passwd v (c : t) : t :=
  Make (host c) (user c) v (ssl_ca_cert c) (cert_file c) (key_file c).
Definition set_ssl_ca_cert v (c : t) : t :=
  Make (host c) (user c) (passwd c) v (cert_file c) (key_file c).
Definition set_cert_file v (c : t) : t :=
  Make (host c) (user c) (passwd c) (ssl_ca_cert c) v (key_file c).
Definition set_key_file v (c : t) : t :=
  Make (host c) (user c) (passwd c) (ssl_ca_cert c) (cert_file c) v.
End Configuration.

(** A file: its bytes, and what [os.remove] does on it ([None]: the file is
    removed; [Some errno]: the call raises [OSError] with that [errno] and
    the file stays). *)
Record file : Type := File {
  data : string;
  unlink_errno : option Z
}.

(** Values of [errno]. *)
Definition ENOENT : Z := 2.
Definition EACCES : Z := 13.
Definition EEXIST : Z := 17.
Definition ENOSPC : Z := 28.

Inductive log_entry : Type :=
| LogError (msg : string)                  (* log.error(msg) *)
| LogException (msg : string) (e : exn).   (* log.exception(msg), in a handler of e *)

(** What a call can read and write: the instance, the shared transport
    configuration, the file system, the log (newest entry first), and the
    paths of the temporary files it created (newest first; a record kept by
    the model only, the code keeps none). *)
Record state : Type := State {
  self : worker;
  configuration : Configuration.t;
  fs : gmap string file;
  log : list log_entry;
  tmpfiles : list string
}.

Definition with_self w (s : state) : state :=
  State w (configuration s) (fs s) (log s) (tmpfiles s).
Definition with_configuration c (s : state) : state :=
  State (self s) c (fs s) (log s) (tmpfiles s).
Definition with_fs f (s : state) : state :=
  State (self s) (configuration s) f (log s) (tmpfiles s).
Definition with_log l (s : state) : state :=
  State (self s) (configuration s) (fs s) l (tmpfiles s).
Definition with_tmpfiles t (s : state) : state :=
  State (self s) (configuration s) (fs s) (log s) t.

(** ** Computations that read and write the state and may raise *)

Definition M (A : Type) : Type := state -> result A * state.

Definition ret {A} (a : A) : M A := fun s => (Ok a, s).
Definition raise {A} (e : exn) : M A := fun s => (Raise e, s).
Definition lift {A} (r : result A) : M A := fun s => (r, s).
Definition bind {A B} (m : M A) (k : A -> M B) : M B :=
  fun s =>
    match m s with
    | (Ok a, s') => k a s'
    | (Raise e, s') => (Raise e, s')
    end.
Definition get : M state := fun s => (Ok s, s).
Definition modify (f : state -> state) : M unit := fun s => (Ok tt, f s).

Declare Scope py_scope.
Delimit Scope py_scope with py.
Notation "x <- m ;; k" := (bind m (fun x => k))
  (at level 100, m at next level, right associativity) : py_scope.
Notation "m ;; k" := (bind m (fun _ => k))
  (at level 100, right associativity) : py_scope.

(** [try: m  except <classes>: h] *)
Definition try_except {A} (m : M A) (classes : exn -> bool) (h : exn -> M A) : M A :=
  fun s =>
    match m s with
    | (Raise e, s') => if classes e then h e s' else (Raise e, s')
    | r => r
    end.

(** [try: m  finally: f]: [f] runs on every way out of [m]; an exception of
    [f] replaces the outcome of [m]. *)
Definition try_finally {A} (m : M A) (f : M unit) : M A :=
  fun s =>
    let (r, s1) := m s in
    match f s1 with
    | (Ok _, s2) => (r, s2)
    | (Raise e, s2) => (Raise e, s2)
    end.

Definition log_error (msg : string) : M unit :=
  modify (fun s => with_log (LogError msg :: log s) s).
Definition log_exception (msg : string) (e : exn) : M unit :=
  modify (fun s => with_log (LogException msg e :: log s) s).

(** Truth value of a value that is a string or [None]. *)
Definition truthy (v : option string) : bool :=
  match v with
  | Some s => negb (String.eqb s "")
  | None => false
  end.

(** ** [set_node] *)

Definition missing_parameter : string :=
  "Missing either parameter or value 'url' or 'kubeconfig' and 'context' in infile".

(** [_validate_parameters] *)
Definition _validate_parameters (node : gmap string string) : M unit :=
  if negb (truthy (node !! "url"))
     && negb (truthy (node !! "kubeconfig") && truthy (node !! "context"))
  then raise (AttributeError missing_parameter)
  else ret tt.

Definition is_AttributeError (e : exn) : bool :=
  match e with AttributeError _ => true | _ => false end.

Definition exn_str (e : exn) : string :=
  match e with
  | AttributeError msg => msg
  | NameError n => n
  | ExternalError w => w
  | _ => ""
  end.

(** [set_node]: the eight assignments cannot raise ([dict.get] does not) and
    are written as one update of the instance. *)
Definition set_node (node : gmap string string) : M unit :=
  (try_except (_validate_parameters node) is_AttributeError
     (fun error => log_error (exn_str error) ;; raise error) ;;
   modify (with_self
     {| url := node !! "url";
        user := node !! "username";
        password := node !! "password";
        client_cert := node !! "client-cert";
        client_key := node !! "client-key";
        ca_cert := node !! "ca-cert";
        kubeconfig := Attr (node !! "kubeconfig");
        context := Attr (node !! "context") |}))%py.

(** ** Teardown *)

(** [os.path.exists]; false on the empty path. *)
Definition path_exists (f : gmap string file) (path : string) : bool :=
  negb (String.eqb path "") && bool_decide (is_Some (f !! path)).

(** [os.remove] *)
Definition os_remove (path : string) : M unit :=
  fun s =>
    match fs s !! path with
    | None => (Raise (OSError ENOENT), s)
    | Some f =>
        match unlink_errno f with
        | Some errno => (Raise (OSError errno), s)
        | None => (Ok tt, with_fs (delete path (fs s)) s)
        end
    end.

Definition is_OSError (e : exn) : bool :=
  match e with OSError _ => true | _ => false end.

(** [_safe_rm].  The module defines no global [log] (the logger is the
    instance attribute [self.log]), so evaluating [log.error] in the handler
    raises [NameError]. *)
Definition _safe_rm (path : option string) : M unit :=
  let path := match path with None => "" | Some p => p end in
  (s <- get ;;
   if path_exists (fs s) path
   then try_except (os_remove path) is_OSError
          (fun ex =>
             match ex with
             | OSError errno =>
                 if negb (errno =? ENOENT) then raise (NameError "log") else ret tt
             | _ => ret tt
             end)
   else ret tt)%py.

Fixpoint for_each {A} (l : list A) (body : A -> M unit) : M unit :=
  match l with
  | [] => ret tt
  | x :: t => (body x ;; for_each t body)%py
  end.

(** [_cleanup] *)
Definition _cleanup : M unit :=
  (s <- get ;;
   for_each [Configuration.ssl_ca_cert (configuration s);
             Configuration.cert_file (configuration s);
             Configuration.key_file (configuration s)] _safe_rm)%py.

(** ** Nodes and inventory records *)

(** An item of the answer of [list_node]: [metadata.name],
    [status.capacity] and three fields of [status.node_info]. *)
Record node : Type := Node {
  metadata_name : string;
  capacity : gmap string string;
  architecture : string;
  machine_id : string;
  os_image : string
}.

(** The dictionary stored for one node. *)
Record host_record : Type := HostRecord {
  type : string;
  cpuArch : string;
  cpuDescription : string;
  cpuMhz : option string;
  cpuVendor : string;
  hostIdentifier : string;
  name : string;
  os : string;
  osVersion : Z;
  ramMb : Z;
  totalCpuCores : option string;
  totalCpuSockets : option string;
  totalCpuThreads : Z;
  vms : gmap string string
}.

(** Lines 115-143 for one node: the record stored under its name. *)
Definition host_of (n : node) : result host_record :=
  let cpu := capacity n !! "cpu" in
  (memory <- ram_mb (capacity n !! "memory") ;;
   let arch := normalize_arch (architecture n) in
   Ok {| type := "kubernetes";
         cpuArch := arch;
         cpuDescription := "(unknown)";
         cpuMhz := cpu;
         cpuVendor := "(unknown)";
         hostIdentifier := machine_id n;
         name := metadata_name n;
         os := os_image n;
         osVersion := 1;
         ramMb := memory;
         totalCpuCores := cpu;
         totalCpuSockets := cpu;
         totalCpuThreads := 1;
         vms := ∅ |})%result.

(** The loop of [run] over [api_response.items], from the dictionary
    [output] built so far. *)
Fixpoint gather (items : list node) (output : gmap string host_record)
  : result (gmap string host_record) :=
  match items with
  | [] => Ok output
  | n :: rest =>
      (h <- host_of n ;; gather rest (<[metadata_name n := h]> output))%result
  end.

(** ** Connection setup and [run] *)

Section Worker.

(** The collaborators outside the module. *)

(** [base64.b64decode]: the decoded bytes, or an exception. *)
Variable b64decode : string -> result string.

(** [tempfile.gettempdir()], and the random characters [tempfile] picks
    for the name of a new file, given the files that exist, or the
    exception it raises. *)
Variable tempdir : string.
Variable random_name : gmap string file -> result string.

(** What [os.remove] will do on a file that [tempfile] creates at a path:
    [None] when it removes the file, [Some errno] when it raises [OSError]
    with that [errno] (the directory has become read-only, the file
    belongs to a mount that refuses the call, ...). *)
Variable remove_errno : string -> option Z.

(** [kubernetes.config.load_kube_config(config_file, context)]: it reads
    files and writes the shared configuration; it may create files. *)
Variable load_kube_config :
  string -> string -> Configuration.t -> gmap string file ->
  result unit * Configuration.t * gmap string file.

(** [CoreV1Api().list_node()]: the items of the answer of the cluster that
    the shared configuration designates, or the exception raised. *)
Variable list_node : Configuration.t -> result (list node).

(** [tempfile.NamedTemporaryFile(prefix='kube-', delete=False)]: a new,
    empty file that [close] does not delete.  The file is opened with
    [O_EXCL], so the name never is that of an existing file. *)
Definition NamedTemporaryFile : M string :=
  fun s =>
    match random_name (fs s) with
    | Raise e => (Raise e, s)
    | Ok name =>
        let path := tempdir +:+ "/kube-" +:+ name in
        match fs s !! path with
        | Some _ => (Raise (OSError EEXIST), s)
        | None =>
            (Ok path,
             with_tmpfiles (path :: tmpfiles s)
               (with_fs (<[path := File "" (remove_errno path)]> (fs s)) s))
        end
    end.

(** [f.write(bytes)] on the file created at [path]. *)
Definition write (path bytes : string) : M unit :=
  modify (fun s =>
    match fs s !! path with
    | Some f => with_fs (<[path := File (data f +:+ bytes) (unlink_errno f)]> (fs s)) s
    | None => s
    end).

(** One of the three [if self.<field>: with NamedTemporaryFile ...] blocks:
    the file is created, then the field is decoded and written, then the
    path is stored in the configuration. *)
Definition materialize (field : option string)
    (register : option string -> Configuration.t -> Configuration.t) : M unit :=
  if truthy field
  then (path <- NamedTemporaryFile ;;
        bytes <- lift (b64decode (default "" field)) ;;
        write path bytes ;;
        modify (fun s => with_configuration (register (Some path) (configuration s)) s))%py
  else ret tt.

(** Reading an instance attribute that may not exist. *)
Definition getattr (a : attr) (attr_name : string) : M (option string) :=
  match a with
  | Attr v => ret v
  | Unset => raise (AttributeError attr_name)
  end.

(** [_setup_connection] *)
Definition _setup_connection : M unit :=
  (s <- get ;;
   let w := self s in
   kc <- getattr (kubeconfig w) "kubeconfig" ;;
   cx <- (if truthy kc then getattr (context w) "context" else ret None) ;;
   if truthy kc && truthy cx
   then
     fun s =>
       let '(r, c, f) :=
         load_kube_config (default "" kc) (default "" cx) (configuration s) (fs s) in
       (r, with_fs f (with_configuration c s))
   else
     modify (with_configuration Configuration.init) ;;
     modify (fun s => with_configuration (Configuration.set_host (url w) (configuration s)) s) ;;
     modify (fun s => with_configuration (Configuration.set_user (user w) (configuration s)) s) ;;
     modify (fun s => with_configuration (Configuration.set_passwd (password w) (configuration s)) s) ;;
     materialize (ca_cert w) Configuration.set_ssl_ca_cert ;;
     materialize (client_cert w) Configuration.set_cert_file ;;
     materialize (client_key w) Configuration.set_key_file)%py.

(** The classes of [except (ApiException, HTTPError)]. *)
Definition caught (e : exn) : bool :=
  match e with
  | ApiException _ | HTTPError => true
  | _ => false
  end.

Definition not_found_message : string := "API Endpoint not found (404)".
Definition list_node_message : string :=
  "Exception when calling CoreV1Api->list_node: ".

(** The body of the [try] of [run]: the query and the loop over the
    items.  [None] is Python's [None], [Some output] the dictionary. *)
Definition gather_nodes : M (option (gmap string host_record)) :=
  (s <- get ;;
   items <- lift (list_node (configuration s)) ;;
   output <- lift (gather items ∅) ;;
   ret (Some output))%py.

(** The handler of [except (ApiException, HTTPError) as exc]. *)
Definition on_backend_error (exc : exn) : M (option (gmap string host_record)) :=
  match exc with
  | ApiException 404 => (log_error not_found_message ;; ret None)%py
  | _ => (log_exception list_node_message exc ;; ret None)%py
  end.

(** [run] *)
Definition run : M (option (gmap string host_record)) :=
  (_setup_connection ;;
   try_finally (try_except gather_nodes caught on_backend_error) _cleanup)%py.

End Worker.

(** ** What the pattern says, read declaratively

    The subject ends after the second group, or with one newline after it
    ([$]); the first group is a non-empty run of digits, the second a
    non-empty run of word characters. *)

Definition end_of_subject (r : list ascii) : Prop := r = [] \/ r = [newline].

(** The subject [l] splits as required by the pattern, in some way. *)
Definition splits (l m u : list ascii) : Prop :=
  (exists r, l = m ++ u ++ r /\ end_of_subject r)
  /\ m <> [] /\ forallb is_digit m = true
  /\ u <> [] /\ forallb is_word u = true.

(** The split a greedy [\d+] chooses: it leaves a digit to the second group
    only when that digit is all the second group can get. *)
Definition groups_list (l m u : list ascii) : Prop :=
  splits l m u /\ (forall c t, u = c :: t -> is_digit c = true -> t = []).

(** [s] matches [^(\d+)(\w+)$]. *)
Definition matches_pattern (s : string) : Prop :=
  exists m u, splits (list_ascii_of_string s) m u.

(** [s] matches [^(\d+)(\w+)$] with groups [m] and [u]. *)
Definition groups (s m u : string) : Prop :=
  groups_list (list_ascii_of_string s) (list_ascii_of_string m) (list_ascii_of_string u).


(** The number a string of decimal digits denotes, most significant first. *)
Definition decimal_value (m : string) : Z :=
  fold_left (fun acc c => 10 * acc + digit_value c) (list_ascii_of_string m) 0.

(** The spellings of ["amd64"] up to the case of its letters. *)
Definition amd64_spellings : list string :=
  ["amd64"; "amD64"; "aMd64"; "aMD64"; "Amd64"; "AmD64"; "AMd64"; "AMD64"].

(** The path [_safe_rm] works on: [None] stands for the empty path. *)
Definition path_of (path : option string) : string :=
  match path with
  | Some p => p
  | None => ""
  end.

(** The paths [_cleanup] passes to [_safe_rm], in order. *)
Definition cleanup_paths (c : Configuration.t) : list (option string) :=
  [Configuration.ssl_ca_cert c; Configuration.cert_file c; Configuration.key_file c].

(** The entry the handler of [run] writes to the log for the exception
    [exc]. *)
Definition backend_error_entry (exc : exn) : log_entry :=
  match exc with
  | ApiException 404 => LogError not_found_message
  | _ => LogException list_node_message exc
  end.

(** The temporary files [created] since the state [s0] are all registered
    in the shared configuration of [s], nothing else is, and each of them
    is a file that [os.remove] removes. *)
Definition registered (s0 s : state) (created : list string) : Prop :=
  tmpfiles s = created ++ tmpfiles s0
  /\ (forall p, p ∈ created <-> Some p ∈ cleanup_paths (configuration s))
  /\ (forall p, p ∈ created ->
       p <> "" /\ exists f, fs s !! p = Some f /\ unlink_errno f = None).

(** ** Collaborators and states for the examples *)

(** The value of a character of the base64 alphabet. *)
Definition b64_value (c : ascii) : option N :=
  let n := N_of_ascii c in
  if in_range "A" "Z" c then Some (n - 65)%N
  else if in_range "a" "z" c then Some (n - 71)%N
  else if in_range "0" "9" c then Some (n + 4)%N
  else if Ascii.eqb c "+" then Some 62%N
  else if Ascii.eqb c "/" then Some 63%N
  else None.

(** The loop of [binascii.a2b_base64] (not strict): characters outside the
    alphabet are skipped, padding that completes a quad ends the input, and
    an incomplete quad at the end is an error.  [out] is the output so far,
    last byte first. *)
Fixpoint a2b_base64 (l : list ascii) (quad_pos : nat) (leftchar : N) (pads : nat)
    (out : list ascii) : result (list ascii) :=
  match l with
  | [] =>
      match quad_pos with
      | O => Ok (rev out)
      | _ => Raise BinasciiError
      end
  | c :: t =>
      if Ascii.eqb c "=" then
        if (2 <=? quad_pos)%nat then
          if (4 <=? quad_pos + S pads)%nat then Ok (rev out)
          else a2b_base64 t quad_pos leftchar (S pads) out
        else a2b_base64 t quad_pos leftchar pads out
      else
        match b64_value c with
        | None => a2b_base64 t quad_pos leftchar pads out
        | Some v =>
            match quad_pos with
            | 0%nat => a2b_base64 t 1 v 0 out
            | 1%nat =>
                a2b_base64 t 2 (v mod 16)%N 0 (ascii_of_N (leftchar * 4 + v / 16) :: out)
            | 2%nat =>
                a2b_base64 t 3 (v mod 4)%N 0 (ascii_of_N (leftchar * 16 + v / 4) :: out)
            | _ =>
                a2b_base64 t 0 0%N 0 (ascii_of_N (leftchar * 64 + v) :: out)
            end
        end
  end.

(** [base64.b64decode] with its default arguments. *)
Definition b64decode_py (s : string) : result string :=
  match a2b_base64 (list_ascii_of_string s) 0 0%N 0 [] with
  | Ok bytes => Ok (string_of_list_ascii bytes)
  | Raise e => Raise e
  end.

(** A source of names for temporary files: the first name of a short list
    that is free in [/tmp]. *)
Definition example_random_name (f : gmap string file) : result string :=
  match List.find (fun n => negb (bool_decide (is_Some (f !! ("/tmp/kube-" +:+ n)))))
          ["8c0z1kq2"; "v3w9xh5m"; "p7r4d2ty"] with
  | Some n => Ok n
  | None => Raise (OSError EEXIST)
  end.

(** A temporary directory in which [os.remove] removes every file that
    [tempfile] created. *)
Definition example_remove_errno (path : string) : option Z := None.

(** A kubeconfig whose context authenticates with a token: loading it sets
    the host and nothing else. *)
Definition example_load_kube_config (config_file ctx : string)
    (c : Configuration.t) (f : gmap string file)
  : result unit * Configuration.t * gmap string file :=
  (Ok tt, Configuration.set_host (Some "https://k8s.example.com:6443") c, f).

Definition example_node_1 : node :=
  Node "worker-1" {["cpu" := "4"; "memory" := "4194304Ki"]} "amd64"
    "4c4c4544-0042-3010" "SUSE Linux Enterprise Server 12 SP3".

Definition example_node_2 : node :=
  Node "worker-2" {["cpu" := "8"; "memory" := "16Gi"]} "arm64"
    "9f0d4b1e-77a1-4d2c" "openSUSE Leap 42.3".

(** A node whose capacity has no ["memory"] entry. *)
Definition example_node_no_memory : node :=
  Node "worker-3" {["cpu" := "2"]} "amd64" "0e5f1a52-1c3b-4a6e" "openSUSE Leap 42.3".

Definition example_list_node (c : Configuration.t) : result (list node) :=
  Ok [example_node_1; example_node_2].

(** A process that has just started: a new worker, the default
    configuration, no file, an empty log. *)
Definition initial_state : state :=
  State init_worker Configuration.init ∅ [] [].

(** A configuration with an endpoint and a CA certificate that is not
    base64. *)
Definition example_node_bad_ca : gmap string string :=
  {["url" := "https://k8s.example.com:6443"; "ca-cert" := "a"]}.

(** A configuration with an endpoint and three well-formed credentials. *)
Definition example_node_url : gmap string string :=
  {["url" := "https://k8s.example.com:6443";
    "ca-cert" := "Q0EgQ0VSVA==";
    "client-cert" := "Q0VSVA==";
    "client-key" := "S0VZ"]}.

(** A configuration that names a kubeconfig file and a context. *)
Definition example_node_kubeconfig : gmap string string :=
  {["kubeconfig" := "/root/.kube/config"; "context" := "production"]}.

(** A configuration with credentials but neither an endpoint nor a
    kubeconfig. *)
Definition example_node_no_target : gmap string string :=
  {["username" := "admin"; "password" := "secret"; "context" := "production"]}.

(** A process whose worker has been configured with [example_node_url]. *)
Definition configured_state : state :=
  with_self
    (Worker (Some "https://k8s.example.com:6443") None None
       (Some "Q0VSVA==") (Some "S0VZ") (Some "Q0EgQ0VSVA==") (Attr None) (Attr None))
    initial_state.

(** A process in which the shared configuration names a CA certificate that
    exists and that [os.remove] refuses to remove ([EACCES]). *)
Definition protected_ca_state : state :=
  State init_worker
    (Configuration.set_ssl_ca_cert (Some "/etc/kubernetes/pki/ca.crt") Configuration.init)
    {["/etc/kubernetes/pki/ca.crt" := File "-----BEGIN CERTIFICATE-----" (Some EACCES)]}
    [] [].

(** A cluster that answers 404 to the query. *)
Definition example_list_node_404 (c : Configuration.t) : result (list node) :=
  Raise (ApiException 404).

(** A cluster with one node, whose capacity has no ["memory"] entry. *)
Definition example_list_node_no_memory (c : Configuration.t) : result (list node) :=
  Ok [example_node_no_memory].

(** The worker run against the example collaborators, temporary files in
    [/tmp]. *)
Definition example_run (list_node : Configuration.t -> result (list node))
  : M (option (gmap string host_record)) :=
  run b64decode_py "/tmp" example_random_name example_remove_errno
    example_load_kube_config list_node.

(** [set_node] with a CA certificate that is not base64, then [run], in a
    process that has just started: the outcome and the final state. *)
Definition bad_ca_run : result (option (gmap string host_record)) * state :=
  (set_node example_node_bad_ca ;; example_run example_list_node)%py initial_state.

(** The process after [set_node] with an endpoint and three credentials and
    a [run]. *)
Definition after_url_run : state :=
  snd ((set_node example_node_url ;; example_run example_list_node)%py initial_state).

(** Later in the same process: another program has created a file under the
    name of the first temporary file of that run, and the worker has been
    configured with a kubeconfig and a context. *)
Definition stale_state : state :=
  snd (set_node example_node_kubeconfig
         (with_fs (<["/tmp/kube-8c0z1kq2" := File "data of another program" None]>
                     (fs after_url_run))
            after_url_run)).

(** [configured_state] after connection setup. *)
Definition configured_after_setup : state :=
  snd (_setup_connection b64decode_py "/tmp" example_random_name
         example_remove_errno
         example_load_kube_config configured_state).

(** The end of a run from [configured_state] against a cluster that answers
    404: the handler has logged, teardown has run. *)
Definition after_404 : state :=
  snd (_cleanup
         (with_log (backend_error_entry (ApiException 404) :: log configured_after_setup)
            configured_after_setup)).

(** A full temporary directory: the first file can be created, a second one
    cannot ([ENOSPC]). *)
Definition example_random_name_full (f : gmap string file) : result string :=
  match f !! "/tmp/kube-8c0z1kq2" with
  | None => Ok "8c0z1kq2"
  | Some _ => Raise (OSError ENOSPC)
  end.

(** [set_node] with an endpoint and three well-formed credentials, then
    [run], in a process that has just started and whose temporary directory
    is full after one file: the outcome and the final state. *)
Definition full_tmp_run : result (option (gmap string host_record)) * state :=
  (set_node example_node_url ;;
   run b64decode_py "/tmp" example_random_name_full example_remove_errno
     example_load_kube_config example_list_node)%py initial_state.

(** ** The declared parameters *)

(** [DEFAULT_PARAMETERS]: the keys and their defaults, in order. *)
Definition DEFAULT_PARAMETERS : list (string * string) :=
  [("url", ""); ("username", ""); ("password", ""); ("client-cert", "");
   ("client-key", ""); ("ca-cert", ""); ("kubeconfig", ""); ("context", "")].

(** [parameters] *)
Definition parameters (w : worker) : list (string * string) := DEFAULT_PARAMETERS.

(** A string of decimal digits, possibly empty. *)
Definition all_digits (s : string) : bool :=
  forallb is_digit (list_ascii_of_string s).

(** The last item of [items] named [k], if there is one: the item whose
    record a dictionary keyed by name keeps. *)
Definition last_named (k : string) (items : list node) : option node :=
  last (List.filter (fun n => String.eqb (metadata_name n) k) items).

(** The record of an item, when its conversion succeeds. *)
Definition record_of (n : node) : option host_record :=
  match host_of n with
  | Ok h => Some h
  | Raise _ => None
  end.

(** What connection setup does with one credential [field], read off the
    path [path] it leaves in the shared configuration: no path when the
    field is empty or absent; otherwise the path of a file that did not
    exist [before] and that [after] setup holds the decoded field. *)
Definition holds_decoded (b64decode : string -> result string)
    (remove_errno : string -> option Z)
    (before after : gmap string file) (field path : option string) : Prop :=
  match path with
  | None => truthy field = false
  | Some p =>
      truthy field = true /\ p <> "" /\ before !! p = None
      /\ exists bytes,
           b64decode (default "" field) = Ok bytes
           /\ after !! p = Some (File bytes (remove_errno p))
  end.

(** What holds between the state [s0] at the start of connection setup and
    the later states on the explicit-endpoint path: the instance and the
    log are those of [s0], the files of [s0] are there unchanged, and no
    registered path is that of a file of [s0]. *)
Definition since (s0 s : state) : Prop :=
  self s = self s0 /\ log s = log s0 /\ fs s0 ⊆ fs s
  /\ forall p, Some p ∈ cleanup_paths (configuration s) -> fs s0 !! p = None.

(** ** More examples *)

(** A mapping with the three credentials of [example_node_url], the
    endpoint and an entry that the module does not declare. *)
Definition example_node_extra_key : gmap string string :=
  <["namespace" := "default"]> example_node_url.

(** A second report of [worker-1], after an upgrade. *)
Definition example_node_1_again : node :=
  Node "worker-1" {["cpu" := "16"; "memory" := "32Gi"]} "AMD64"
    "4c4c4544-0042-3010" "SUSE Linux Enterprise Server 15".

(** A cluster whose answer names [worker-1] twice. *)
Definition example_list_node_repeated (c : Configuration.t) : result (list node) :=
  Ok [example_node_1; example_node_2; example_node_1_again].

(** The run from [configured_state] against that cluster, and the
    dictionary it returns. *)
Definition repeated_run : result (option (gmap string host_record)) * state :=
  example_run example_list_node_repeated configured_state.

Definition repeated_output : gmap string host_record :=
  match fst repeated_run with
  | Ok (Some output) => output
  | _ => ∅
  end.

(** The record of the second report of [worker-1]. *)
Definition example_record_1_again : host_record :=
  {| type := "kubernetes";
     cpuArch := "x86_64";
     cpuDescription := "(unknown)";
     cpuMhz := Some "16";
     cpuVendor := "(unknown)";
     hostIdentifier := "4c4c4544-0042-3010";
     name := "worker-1";
     os := "SUSE Linux Enterprise Server 15";
     osVersion := 1;
     ramMb := 32768;
     totalCpuCores := Some "16";
     totalCpuSockets := Some "16";
     totalCpuThreads := 1;
     vms := ∅ |}.

(** A cluster of three nodes, the second without a ["memory"] capacity. *)
Definition example_list_node_second_no_memory (c : Configuration.t)
  : result (list node) :=
  Ok [example_node_1; example_node_no_memory; example_node_2].

(** [configured_after_setup] after teardown. *)
Definition after_teardown : state := snd (_cleanup configured_after_setup).

(** [configured_state] in a process where another program owns a file
    under the first name the example source of names proposes. *)
Definition busy_tmp_state : state :=
  with_fs {["/tmp/kube-8c0z1kq2" := File "data of another program" None]}
    configured_state.

(** A process whose worker has been configured with
    [example_node_kubeconfig]. *)
Definition kubeconfig_state : state :=
  snd (set_node example_node_kubeconfig initial_state).

(** A worker with the same kubeconfig and context, and with an endpoint
    and credentials as well. *)
Definition example_worker_both : worker :=
  Worker (Some "https://k8s.example.com:6443") (Some "admin") (Some "secret")
    (Some "Q0VSVA==") (Some "S0VZ") (Some "Q0EgQ0VSVA==")
    (Attr (Some "/root/.kube/config")) (Attr (Some "production")).

(** * Properties *)

(** ** Results *)

Lemma rbind_Ok {A B} (r : result A) (k : A -> result B) (b : B) :
  rbind r k = Ok b <-> exists a, r = Ok a /\ k a = Ok b.
Proof.
  destruct r as [a|e]; simpl.
  - split; [eauto | intros (a' & [= <-] & H); exact H].
  - split; [discriminate | intros (a' & [=] & _)].
Qed.

(** ** Strings and lists of characters *)

Lemma list_ascii_of_string_app (a b : string) :
  list_ascii_of_string (a +:+ b) = list_ascii_of_string a ++ list_ascii_of_string b.
Proof. induction a as [|c a IH]; simpl; [reflexivity | rewrite IH; reflexivity]. Qed.

Lemma list_ascii_of_string_inj (a b : string) :
  list_ascii_of_string a = list_ascii_of_string b -> a = b.
Proof.
  intros H. rewrite <- (string_of_list_ascii_of_string a), <- (string_of_list_ascii_of_string b).
  rewrite H. reflexivity.
Qed.

(** ** Character classes *)

Lemma is_digit_word c : is_digit c = true -> is_word c = true.
Proof. unfold is_word. intros ->. rewrite orb_true_r. reflexivity. Qed.

Lemma newline_not_word : is_word newline = false.
Proof. reflexivity. Qed.

Lemma newline_not_digit : is_digit newline = false.
Proof. reflexivity. Qed.

Lemma digit_value_range c : is_digit c = true -> 0 <= digit_value c <= 9.
Proof.
  unfold is_digit, in_range, digit_value.
  intros [H1 H2]%andb_true_iff.
  apply N.leb_le in H1, H2. change (N_of_ascii "0") with 48%N in H1.
  change (N_of_ascii "9") with 57%N in H2. lia.
Qed.

(** ** The backtracking matcher *)

Lemma class_run_app p (d r : list ascii) :
  forallb p d = true -> class_run p (d ++ r) = (length d + class_run p r)%nat.
Proof.
  induction d as [|c d IH]; simpl; [reflexivity|].
  intros [Hc Hd]%andb_true_iff. rewrite Hc, IH by assumption. reflexivity.
Qed.

Lemma class_run_take p (l : list ascii) (k : nat) :
  (k <= class_run p l)%nat -> forallb p (take k l) = true /\ length (take k l) = k.
Proof.
  revert k. induction l as [|c l IH]; intros k Hk; simpl in Hk.
  - assert (k = 0%nat) as -> by lia. split; reflexivity.
  - destruct k as [|k]; [split; reflexivity|].
    destruct (p c) eqn:Hc; [|lia].
    destruct (IH k) as [H1 H2]; [lia|]. simpl. rewrite Hc, H1, H2. split; reflexivity.
Qed.

Lemma class_run_end p (r : list ascii) :
  p newline = false -> end_of_subject r -> class_run p r = 0%nat.
Proof. intros Hp [-> | ->]; simpl; [|rewrite Hp]; reflexivity. Qed.

Lemma at_dollar_end r : at_dollar r = true <-> end_of_subject r.
Proof.
  unfold end_of_subject. split.
  - destruct r as [|c [|c' r]]; simpl; intros H; try discriminate; [left; reflexivity|].
    right. apply Ascii.eqb_eq in H. subst. reflexivity.
  - intros [-> | ->]; reflexivity.
Qed.

(** The first success of [longest_first] is at the largest length that
    succeeds. *)
Lemma longest_first_Some {A} (k : nat) (f : nat -> option A) (x : A) :
  longest_first k f = Some x <->
  exists j, (1 <= j <= k)%nat /\ f j = Some x
            /\ forall j', (j < j' <= k)%nat -> f j' = None.
Proof.
  induction k as [|k IH]; simpl.
  - split; [discriminate|]. intros (j & Hj & _). lia.
  - destruct (f (S k)) as [y|] eqn:Hf.
    + split.
      * intros [= ->]. exists (S k).
        split; [lia|]. split; [assumption|]. intros j' ?. lia.
      * intros (j & Hj & Hx & Hmax).
        destruct (decide (j = S k)) as [-> | Hne]; [congruence|].
        rewrite Hmax in Hf by lia. discriminate.
    + rewrite IH. split; intros (j & Hj & Hx & Hmax); exists j.
      * split; [lia|]. split; [assumption|]. intros j' Hj'.
        destruct (decide (j' = S k)) as [-> | Hne]; [assumption|]. apply Hmax. lia.
      * assert (j <> S k) by congruence.
        split; [lia|]. split; [assumption|]. intros j' Hj'. apply Hmax. lia.
Qed.

(** [(\w+)$]: the group is the whole rest of the subject up to its end. *)
Lemma match_word_end_Some (l u : list ascii) :
  match_word_end l = Some u <->
  u <> [] /\ forallb is_word u = true /\ exists r, l = u ++ r /\ end_of_subject r.
Proof.
  unfold match_word_end. rewrite longest_first_Some. split.
  - intros (j & Hj & Hf & _).
    destruct (at_dollar (drop j l)) eqn:Hd; [|discriminate].
    injection Hf as <-.
    destruct (class_run_take is_word l j) as [Hw Hlen]; [lia|].
    split; [|split].
    + intros Hnil. rewrite Hnil in Hlen. simpl in Hlen. lia.
    + assumption.
    + exists (drop j l). split; [symmetry; apply take_drop | apply at_dollar_end, Hd].
  - intros (Hne & Hw & r & -> & Hr).
    assert (Hrun : class_run is_word (u ++ r) = length u).
    { rewrite class_run_app, (class_run_end _ r) by auto using newline_not_word. lia. }
    exists (length u). rewrite Hrun.
    assert (length u <> 0%nat) by (destruct u; simpl; congruence).
    split; [lia|]. split.
    + rewrite drop_app_length, take_app_length.
      apply at_dollar_end in Hr. rewrite Hr. reflexivity.
    + intros j' ?. lia.
Qed.

Lemma match_word_end_of_end (r : list ascii) :
  end_of_subject r -> match_word_end r = None.
Proof.
  intros Hr. destruct (match_word_end r) as [u|] eqn:Hm; [|reflexivity].
  apply match_word_end_Some in Hm as (Hne & Hw & r' & -> & _).
  destruct u as [|c u]; [congruence|].
  destruct Hr as [Hr | Hr]; [discriminate|].
  injection Hr as -> _. simpl in Hw. discriminate.
Qed.

(** [re.match] returns the groups of the greedy split, and only them. *)
Lemma reg_match_list_groups (l m u : list ascii) :
  reg_match_list l = Some (m, u) <-> groups_list l m u.
Proof.
  unfold reg_match_list. rewrite longest_first_Some. split.
  - intros (k & Hk & Hf & Hmax).
    destruct (match_word_end (drop k l)) as [u'|] eqn:Hu; [|discriminate].
    injection Hf as <- ->.
    apply match_word_end_Some in Hu as (Hne & Hw & r & Hdrop & Hr).
    destruct (class_run_take is_digit l k) as [Hd Hlen]; [lia|].
    assert (Hl : l = take k l ++ u ++ r) by (rewrite <- Hdrop, take_drop; reflexivity).
    split; [split; [|split; [|split; [|split]]]|]; try assumption.
    + exists r. split; assumption.
    + intros Hnil. rewrite Hnil in Hlen. simpl in Hlen. lia.
    + intros c t -> Hc.
      destruct t as [|c' t]; [reflexivity | exfalso].
      assert (Hrun : (S k <= class_run is_digit l)%nat).
      { rewrite Hl, class_run_app by assumption. simpl. rewrite Hc. lia. }
      assert (Hd' : drop (S k) l = (c' :: t) ++ r).
      { replace (S k) with (k + 1)%nat by lia.
        rewrite <- drop_drop, Hdrop. reflexivity. }
      assert (Hsome : match_word_end (drop (S k) l) = Some (c' :: t)).
      { apply match_word_end_Some. split; [discriminate|]. split.
        - simpl in Hw. apply andb_true_iff in Hw as [_ Hw]. exact Hw.
        - exists r. split; assumption. }
      specialize (Hmax (S k) ltac:(lia)). rewrite Hsome in Hmax. discriminate.
  - intros [[(r & -> & Hr) (Hm & Hd & Hu & Hw)] Hgreedy].
    exists (length m).
    assert (length m <> 0%nat) by (destruct m; simpl; congruence).
    assert (Hfk : match_word_end (drop (length m) (m ++ u ++ r)) = Some u).
    { rewrite drop_app_length. apply match_word_end_Some.
      split; [assumption|]. split; [assumption|]. exists r. split; [reflexivity | assumption]. }
    rewrite Hfk, take_app_length.
    destruct u as [|c t]; [congruence|].
    rewrite class_run_app by assumption.
    destruct (is_digit c) eqn:Hc.
    + rewrite (Hgreedy c t eq_refl Hc) in *. simpl. rewrite Hc.
      rewrite (class_run_end _ r) by auto using newline_not_digit.
      split; [lia|]. split; [reflexivity|].
      intros j' Hj'. assert (j' = S (length m)) as -> by lia.
      change (m ++ [c] ++ r) with (m ++ c :: r).
      rewrite <- Nat.add_1_r, <- drop_drop, drop_app_length. simpl.
      rewrite drop_0, match_word_end_of_end by assumption. reflexivity.
    + simpl. rewrite Hc.
      split; [lia|]. split; [reflexivity|]. intros j' ?. lia.
Qed.

(** Whenever the subject splits at all, the greedy split exists. *)
Lemma splits_groups_list (l m u : list ascii) :
  splits l m u -> exists m' u', groups_list l m' u'.
Proof.
  revert m. induction u as [|c t IH]; intros m [(r & Hl & Hr) (Hm & Hd & Hu & Hw)].
  - congruence.
  - destruct (is_digit c) eqn:Hc; [destruct t as [|c' t]|].
    + exists m, [c]. split; [split; eauto|]. intros ? ? [= <- <-] _. reflexivity.
    + apply (IH (m ++ [c])). split; [|split; [|split; [|split]]].
      * exists r. split; [|assumption]. rewrite Hl, <- app_assoc. reflexivity.
      * destruct m; discriminate.
      * rewrite forallb_app. simpl. rewrite Hd, Hc. reflexivity.
      * discriminate.
      * simpl in Hw. apply andb_true_iff in Hw as [_ Hw]. exact Hw.
    + exists m, (c :: t). split; [split; eauto|]. intros ? ? [= <- <-] ?. congruence.
Qed.

Lemma reg_match_groups (s m u : string) :
  reg_match s = Some (m, u) <-> groups s m u.
Proof.
  unfold reg_match, groups. rewrite <- reg_match_list_groups.
  destruct (reg_match_list (list_ascii_of_string s)) as [[m' u']|]; split; intros H; try discriminate.
  - injection H as <- <-. rewrite !list_ascii_of_string_of_list_ascii. reflexivity.
  - injection H as -> ->. rewrite !string_of_list_ascii_of_string. reflexivity.
Qed.

Lemma reg_match_None (s : string) :
  reg_match s = None <-> ~ matches_pattern s.
Proof.
  unfold reg_match, matches_pattern. split.
  - intros H (m & u & Hs).
    apply splits_groups_list in Hs as (m' & u' & Hg).
    apply reg_match_list_groups in Hg. rewrite Hg in H. discriminate.
  - intros H. destruct (reg_match_list (list_ascii_of_string s)) as [[m u]|] eqn:Hm; [|reflexivity].
    exfalso. apply H. exists m, u. apply reg_match_list_groups in Hm. apply Hm.
Qed.

(** ** Numbers *)

Lemma int_of_digits_fold (l : list ascii) (acc : Z) :
  forallb is_digit l = true ->
  int_of_digits acc l = Some (fold_left (fun a c => 10 * a + digit_value c) l acc).
Proof.
  revert acc. induction l as [|c l IH]; intros acc H; simpl in *; [reflexivity|].
  apply andb_true_iff in H as [Hc Hl]. rewrite Hc. apply IH, Hl.
Qed.

Lemma fold_digits_nonneg (l : list ascii) (acc : Z) :
  forallb is_digit l = true -> 0 <= acc ->
  0 <= fold_left (fun a c => 10 * a + digit_value c) l acc.
Proof.
  revert acc. induction l as [|c l IH]; intros acc H Hacc; simpl in *; [assumption|].
  apply andb_true_iff in H as [Hc Hl]. apply IH; [assumption|].
  pose proof (digit_value_range c Hc). lia.
Qed.

(** [int] of a first group is the number its digits denote, when the group
    has no more digits than [int] converts, and [ValueError] otherwise. *)
Lemma int_of_str_digits (m : string) :
  list_ascii_of_string m <> [] -> forallb is_digit (list_ascii_of_string m) = true ->
  int_of_str m
  = (if Z.of_nat (String.length m) <=? max_str_digits
     then Ok (decimal_value m) else Raise ValueError)
  /\ 0 <= decimal_value m.
Proof.
  intros Hne Hd. unfold int_of_str, decimal_value.
  split; [|apply fold_digits_nonneg; [assumption | lia]].
  destruct (list_ascii_of_string m) as [|c l] eqn:El; [congruence|].
  rewrite int_of_digits_fold by assumption. reflexivity.
Qed.







(** ** The memory of a node *)

Lemma ram_mb_no_match (s : string) :
  reg_match s = None -> ram_mb (Some s) = Ok 0.
Proof. intros H. unfold ram_mb. rewrite H. reflexivity. Qed.

Lemma groups_nonneg (s m u : string) :
  groups s m u -> 0 <= decimal_value m.
Proof.
  intros [(_ & Hm & Hd & _) _]. apply int_of_str_digits; assumption.
Qed.

Lemma groups_digits (s m u : string) :
  groups s m u -> Z.of_nat (String.length m) <= max_str_digits ->
  int_of_str m = Ok (decimal_value m) /\ 0 <= decimal_value m.
Proof.
  intros [(_ & Hm & Hd & _) _] Hlen.
  destruct (int_of_str_digits m Hm Hd) as [Hint H0]. split; [|exact H0].
  rewrite Hint. apply Z.leb_le in Hlen. rewrite Hlen. reflexivity.
Qed.

(** A first group with more digits than [int] converts. *)
Lemma groups_too_long (s m u : string) :
  groups s m u -> max_str_digits < Z.of_nat (String.length m) ->
  int_of_str m = Raise ValueError.
Proof.
  intros [(_ & Hm & Hd & _) _] Hlen.
  destruct (int_of_str_digits m Hm Hd) as [Hint _].
  rewrite Hint. apply Z.leb_gt in Hlen. rewrite Hlen. reflexivity.
Qed.


Lemma ram_mb_Gi (s m : string) :
  groups s m "Gi" -> Z.of_nat (String.length m) <= max_str_digits ->
  ram_mb (Some s) = Ok (decimal_value m * 1024).
Proof.
  intros Hg Hlen. destruct (groups_digits _ _ _ Hg Hlen) as [Hint H0].
  apply reg_match_groups in Hg. unfold ram_mb. rewrite Hg. simpl.
  rewrite Hint. reflexivity.
Qed.

Lemma ram_mb_other (s m u : string) :
  groups s m u -> Z.of_nat (String.length m) <= max_str_digits ->
  u <> "Ki" -> u <> "Gi" -> ram_mb (Some s) = Ok (decimal_value m).
Proof.
  intros Hg Hlen HKi HGi. destruct (groups_digits _ _ _ Hg Hlen) as [Hint H0].
  apply reg_match_groups in Hg. unfold ram_mb. rewrite Hg.
  apply String.eqb_neq in HKi, HGi. rewrite HKi, HGi. simpl. exact Hint.
Qed.

(** Whatever the unit, a magnitude with more digits than [int] converts
    ends in [ValueError]. *)
Lemma ram_mb_too_long (s m u : string) :
  groups s m u -> max_str_digits < Z.of_nat (String.length m) ->
  ram_mb (Some s) = Raise ValueError.
Proof.
  intros Hg Hlen. pose proof (groups_too_long _ _ _ Hg Hlen) as Hint.
  apply reg_match_groups in Hg. unfold ram_mb. rewrite Hg.
  destruct (String.eqb_spec u "Ki") as [-> | HKi].
  - cbn -[truediv_1024 int_of_str]. rewrite Hint. reflexivity.
  - destruct (String.eqb u "Gi"); cbn -[int_of_str]; rewrite Hint; reflexivity.
Qed.







(** ** The architecture of a node *)

Ltac by_cases_on_char c :=
  destruct c as [[] [] [] [] [] [] [] []]; vm_compute;
  first [ intros H; discriminate H
        | intros _; reflexivity
        | intros _; left; reflexivity
        | intros _; right; reflexivity ].

Lemma lower_char_a c : lower_char c = "a"%char -> c = "a"%char \/ c = "A"%char.
Proof. by_cases_on_char c. Qed.
Lemma lower_char_m c : lower_char c = "m"%char -> c = "m"%char \/ c = "M"%char.
Proof. by_cases_on_char c. Qed.
Lemma lower_char_d c : lower_char c = "d"%char -> c = "d"%char \/ c = "D"%char.
Proof. by_cases_on_char c. Qed.
Lemma lower_char_6 c : lower_char c = "6"%char -> c = "6"%char.
Proof. by_cases_on_char c. Qed.
Lemma lower_char_4 c : lower_char c = "4"%char -> c = "4"%char.
Proof. by_cases_on_char c. Qed.

Lemma lower_amd64 (arch : string) :
  lower arch = "amd64" <-> arch ∈ amd64_spellings.
Proof.
  split.
  - destruct arch as [|c1 [|c2 [|c3 [|c4 [|c5 [|c6 t]]]]]]; simpl; try discriminate.
    intros [= H1 H2 H3 H4 H5].
    apply lower_char_a in H1. apply lower_char_m in H2. apply lower_char_d in H3.
    apply lower_char_6 in H4. apply lower_char_4 in H5.
    unfold amd64_spellings. rewrite !elem_of_cons.
    subst c4 c5.
    destruct H1 as [-> | ->], H2 as [-> | ->], H3 as [-> | ->]; tauto.
  - unfold amd64_spellings. rewrite !elem_of_cons, elem_of_nil.
    intros H. repeat (destruct H as [-> | H]; [reflexivity|]). contradiction.
Qed.

(** C6.  The architecture is rewritten to ["x86_64"] exactly when it is
    ["amd64"] up to the case of its letters, that is one of its eight
    spellings, and is passed through unchanged otherwise; ["amd64"],
    ["AMD64"] and ["Amd64"] become ["x86_64"], ["arm64"] stays. *)
Theorem normalize_arch_amd64 (arch : string) :
  (lower arch = lower "amd64" <-> arch ∈ amd64_spellings) /\
  normalize_arch arch
    = (if bool_decide (arch ∈ amd64_spellings) then "x86_64" else arch) /\
  normalize_arch "amd64" = "x86_64" /\
  normalize_arch "AMD64" = "x86_64" /\
  normalize_arch "Amd64" = "x86_64" /\
  normalize_arch "arm64" = "arm64".
Proof.
  split; [exact (lower_amd64 arch)|].
  split; [|repeat split; reflexivity].
  unfold normalize_arch. case_bool_decide as Hin.
  - apply lower_amd64 in Hin. rewrite Hin. reflexivity.
  - destruct (String.eqb (lower arch) "amd64") eqn:E; [|reflexivity].
    apply String.eqb_eq, lower_amd64 in E. contradiction.
Qed.

(** ** [set_node] *)

Lemma validate_parameters_ok (node : gmap string string) (s : state) :
  truthy (node !! "url") = true
  \/ truthy (node !! "kubeconfig") && truthy (node !! "context") = true ->
  _validate_parameters node s = (Ok tt, s).
Proof.
  unfold _validate_parameters. intros [-> | ->]; [reflexivity|].
  rewrite andb_false_r. reflexivity.
Qed.

Lemma validate_parameters_fails (node : gmap string string) (s : state) :
  truthy (node !! "url") = false ->
  truthy (node !! "kubeconfig") && truthy (node !! "context") = false ->
  _validate_parameters node s = (Raise (AttributeError missing_parameter), s).
Proof. unfold _validate_parameters. intros -> ->. reflexivity. Qed.

(** The two outcomes of [set_node]: the instance holds the eight values of
    the mapping and nothing else has changed, or [AttributeError] is raised
    and only the log has changed. *)
Lemma set_node_cases (node : gmap string string) (s : state) :
  (truthy (node !! "url") = true
   \/ truthy (node !! "kubeconfig") && truthy (node !! "context") = true) /\
  set_node node s =
    (Ok tt,
     with_self (Worker (node !! "url") (node !! "username") (node !! "password")
                  (node !! "client-cert") (node !! "client-key") (node !! "ca-cert")
                  (Attr (node !! "kubeconfig")) (Attr (node !! "context"))) s)
  \/
  (truthy (node !! "url") = false
   /\ truthy (node !! "kubeconfig") && truthy (node !! "context") = false) /\
  set_node node s =
    (Raise (AttributeError missing_parameter),
     with_log (LogError missing_parameter :: log s) s).
Proof.
  destruct (truthy (node !! "url")) eqn:Hu;
    [|destruct (truthy (node !! "kubeconfig") && truthy (node !! "context")) eqn:Hk].
  - left. split; [left; reflexivity|].
    unfold set_node, bind, try_except.
    rewrite validate_parameters_ok by (left; exact Hu). reflexivity.
  - left. split; [right; reflexivity|].
    unfold set_node, bind, try_except.
    rewrite validate_parameters_ok by (right; exact Hk). reflexivity.
  - right. split; [split; reflexivity|].
    unfold set_node, bind, try_except.
    rewrite validate_parameters_fails by assumption. reflexivity.
Qed.

(** C5.  With a non-empty [url], [set_node] returns normally and the
    instance holds the values of the mapping; with [url] empty or absent
    and [kubeconfig] and [context] not both non-empty, it raises
    [AttributeError] (the configuration error), and at that point the file
    system, the shared transport configuration and the list of temporary
    files are as they were: the message has been logged, nothing else was
    done. *)
Theorem set_node_outcome (node : gmap string string) (s : state) :
  (truthy (node !! "url") = true ->
   exists s', set_node node s = (Ok tt, s')
     /\ url (self s') = node !! "url"
     /\ user (self s') = node !! "username"
     /\ password (self s') = node !! "password"
     /\ client_cert (self s') = node !! "client-cert"
     /\ client_key (self s') = node !! "client-key"
     /\ ca_cert (self s') = node !! "ca-cert"
     /\ kubeconfig (self s') = Attr (node !! "kubeconfig")
     /\ context (self s') = Attr (node !! "context")) /\
  (truthy (node !! "url") = false ->
   truthy (node !! "kubeconfig") && truthy (node !! "context") = false ->
   exists s', set_node node s = (Raise (AttributeError missing_parameter), s')
     /\ fs s' = fs s
     /\ configuration s' = configuration s
     /\ tmpfiles s' = tmpfiles s
     /\ log s' = LogError missing_parameter :: log s).
Proof.
  split.
  - intros Hu. destruct (set_node_cases node s) as [[_ ->] | [[Hu' _] _]]; [|congruence].
    eexists. split; [reflexivity|]. repeat split.
  - intros Hu Hk. destruct (set_node_cases node s) as [[[Hu' | Hk'] _] | [_ ->]];
      [congruence | congruence |].
    eexists. split; [reflexivity|]. repeat split.
Qed.

(** A mapping with a failing validation: credentials, but neither an
    endpoint nor a kubeconfig. *)
Lemma set_node_outcome_witness :
  (exists s', set_node example_node_url initial_state = (Ok tt, s')
     /\ url (self s') = Some "https://k8s.example.com:6443") /\
  (exists s', set_node example_node_no_target initial_state
              = (Raise (AttributeError missing_parameter), s')
     /\ fs s' = fs initial_state).
Proof.
  assert (H1 : truthy (example_node_url !! "url") = true) by (vm_compute; reflexivity).
  assert (H2 : truthy (example_node_no_target !! "url") = false) by (vm_compute; reflexivity).
  assert (H3 : truthy (example_node_no_target !! "kubeconfig")
               && truthy (example_node_no_target !! "context") = false)
    by (vm_compute; reflexivity).
  split.
  - destruct (proj1 (set_node_outcome example_node_url initial_state) H1)
      as (s' & H & Hurl & _).
    exists s'. split; [exact H|]. rewrite Hurl. vm_compute. reflexivity.
  - destruct (proj2 (set_node_outcome example_node_no_target initial_state) H2 H3)
      as (s' & H & Hfs & _).
    exists s'. split; [exact H | exact Hfs].
Defined.

(** C10.  When [set_node] raises, the instance is the one it was before the
    call: none of the eight attributes has been assigned. *)
Theorem set_node_failure_atomic (node : gmap string string) (s s' : state) (e : exn) :
  set_node node s = (Raise e, s') ->
  self s' = self s
  /\ url (self s') = url (self s)
  /\ user (self s') = user (self s)
  /\ password (self s') = password (self s)
  /\ client_cert (self s') = client_cert (self s)
  /\ client_key (self s') = client_key (self s)
  /\ ca_cert (self s') = ca_cert (self s)
  /\ kubeconfig (self s') = kubeconfig (self s)
  /\ context (self s') = context (self s).
Proof.
  intros H. destruct (set_node_cases node s) as [[_ H'] | [_ H']];
    rewrite H' in H; [discriminate|].
  injection H as _ <-. repeat split.
Qed.

Lemma set_node_failure_atomic_witness :
  set_node example_node_no_target configured_state
    = (Raise (AttributeError missing_parameter),
       with_log [LogError missing_parameter] configured_state)
  /\ url (self (with_log [LogError missing_parameter] configured_state))
     = Some "https://k8s.example.com:6443".
Proof.
  assert (H : set_node example_node_no_target configured_state
              = (Raise (AttributeError missing_parameter),
                 with_log [LogError missing_parameter] configured_state))
    by (vm_compute; reflexivity).
  split; [exact H|].
  destruct (set_node_failure_atomic _ _ _ _ H) as (_ & Hurl & _).
  rewrite Hurl. vm_compute. reflexivity.
Defined.

(** ** Teardown *)

Lemma path_exists_Some (f : gmap string file) (p : string) (x : file) :
  p <> "" -> f !! p = Some x -> path_exists f p = true.
Proof.
  intros Hp Hx. unfold path_exists. apply String.eqb_neq in Hp. rewrite Hp, Hx.
  reflexivity.
Qed.

(** What [_safe_rm] does, by cases on the file at [path]. *)
Lemma safe_rm_cases (path : option string) (s : state) :
  _safe_rm path s =
    if path_exists (fs s) (path_of path) then
      match fs s !! path_of path with
      | Some f =>
          match unlink_errno f with
          | None => (Ok tt, with_fs (delete (path_of path) (fs s)) s)
          | Some errno =>
              if errno =? ENOENT then (Ok tt, s) else (Raise (NameError "log"), s)
          end
      | None => (Ok tt, s)
      end
    else (Ok tt, s).
Proof.
  unfold _safe_rm, bind, get. fold (path_of path).
  destruct (path_exists (fs s) (path_of path)) eqn:He; [|reflexivity].
  unfold path_exists in He. apply andb_true_iff in He as [_ He].
  apply bool_decide_eq_true in He as [f Hf].
  unfold try_except, os_remove. rewrite Hf.
  destruct (unlink_errno f) as [errno|]; [|reflexivity].
  simpl. destruct (errno =? ENOENT); reflexivity.
Qed.

(** A path that is [None], empty or absent: nothing happens. *)
Lemma safe_rm_absent (path : option string) (s : state) :
  path_exists (fs s) (path_of path) = false -> _safe_rm path s = (Ok tt, s).
Proof. intros H. rewrite safe_rm_cases, H. reflexivity. Qed.

(** A file that [os.remove] removes. *)
Lemma safe_rm_removes (p : string) (f : file) (s : state) :
  p <> "" -> fs s !! p = Some f -> unlink_errno f = None ->
  _safe_rm (Some p) s = (Ok tt, with_fs (delete p (fs s)) s).
Proof.
  intros Hp Hf Hu. rewrite safe_rm_cases. cbn [path_of].
  rewrite (path_exists_Some _ _ _ Hp Hf), Hf, Hu. reflexivity.
Qed.

(** A file that [os.remove] refuses to remove, for a reason other than
    [ENOENT]: the handler raises [NameError]. *)
Lemma safe_rm_refused (p : string) (f : file) (errno : Z) (s : state) :
  p <> "" -> fs s !! p = Some f -> unlink_errno f = Some errno -> errno <> ENOENT ->
  _safe_rm (Some p) s = (Raise (NameError "log"), s).
Proof.
  intros Hp Hf Hu He. rewrite safe_rm_cases. cbn [path_of].
  rewrite (path_exists_Some _ _ _ Hp Hf), Hf, Hu.
  apply Z.eqb_neq in He. rewrite He. reflexivity.
Qed.

(** The outcomes of [_safe_rm], for every path and state: a path that is
    [None], empty or absent leaves everything as it is; a file that
    [os.remove] removes is removed; a failure with [ENOENT] is ignored; any
    other failure of [os.remove] ends in [NameError], the file untouched. *)
Theorem safe_rm_outcomes (path : option string) (s : state) :
  (path_exists (fs s) (path_of path) = false /\ _safe_rm path s = (Ok tt, s))
  \/ exists f, path_of path <> "" /\ fs s !! path_of path = Some f
       /\ match unlink_errno f with
          | None =>
              _safe_rm path s = (Ok tt, with_fs (delete (path_of path) (fs s)) s)
          | Some errno =>
              (errno = ENOENT /\ _safe_rm path s = (Ok tt, s))
              \/ (errno <> ENOENT /\ _safe_rm path s = (Raise (NameError "log"), s))
          end.
Proof.
  rewrite safe_rm_cases.
  destruct (path_exists (fs s) (path_of path)) eqn:He; [right | left; split; reflexivity].
  unfold path_exists in He. apply andb_true_iff in He as [Hne He].
  apply negb_true_iff, String.eqb_neq in Hne.
  apply bool_decide_eq_true in He as [f Hf].
  exists f. rewrite Hf. split; [exact Hne|]. split; [reflexivity|].
  destruct (unlink_errno f) as [errno|]; [|reflexivity].
  destruct (Z.eqb_spec errno ENOENT) as [-> | Hneq].
  - left. split; reflexivity.
  - right. split; [exact Hneq | reflexivity].
Qed.

(** [_safe_rm] touches the file system only, and only by removing. *)
Lemma safe_rm_frame (path : option string) (s s' : state) (r : result unit) :
  _safe_rm path s = (r, s') ->
  self s' = self s /\ configuration s' = configuration s /\ log s' = log s
  /\ tmpfiles s' = tmpfiles s /\ fs s' ⊆ fs s.
Proof.
  rewrite safe_rm_cases.
  destruct (path_exists _ _); [destruct (fs s !! _) as [f|]; [destruct (unlink_errno f) as [e|];
    [destruct (e =? ENOENT)|]|]|];
    intros [= <- <-]; repeat split; try reflexivity.
  apply delete_subseteq.
Qed.

Lemma for_each_safe_rm_frame (l : list (option string)) (s s' : state) (r : result unit) :
  for_each l _safe_rm s = (r, s') ->
  self s' = self s /\ configuration s' = configuration s /\ log s' = log s
  /\ tmpfiles s' = tmpfiles s /\ fs s' ⊆ fs s.
Proof.
  revert s. induction l as [|x l IH]; intros s; simpl.
  - intros [= <- <-]. repeat split; reflexivity.
  - unfold bind. destruct (_safe_rm x s) as [[[]|e] s1] eqn:E1;
      apply safe_rm_frame in E1 as (H1 & H2 & H3 & H4 & H5).
    + intros H. apply IH in H as (A1 & A2 & A3 & A4 & A5).
      repeat split; try congruence. etrans; eassumption.
    + intros [= <- <-]. repeat split; assumption.
Qed.

(** When the loop of [_cleanup] completes, every listed file that
    [os.remove] removes is gone. *)
Lemma for_each_safe_rm_removed (l : list (option string)) (s s' : state)
    (p : string) (f : file) :
  for_each l _safe_rm s = (Ok tt, s') ->
  Some p ∈ l -> p <> "" -> fs s !! p = Some f -> unlink_errno f = None ->
  fs s' !! p = None.
Proof.
  revert s. induction l as [|x l IH]; intros s Hrun Hin Hp Hf Hu.
  - apply elem_of_nil in Hin. contradiction.
  - simpl in Hrun. unfold bind in Hrun.
    destruct (_safe_rm x s) as [[[]|e] s1] eqn:E1; [|discriminate].
    pose proof (for_each_safe_rm_frame _ _ _ _ Hrun) as (_ & _ & _ & _ & Hsub).
    destruct (decide (x = Some p)) as [-> | Hne].
    + rewrite (safe_rm_removes p f s Hp Hf Hu) in E1. injection E1 as <-.
      eapply lookup_weaken_None; [|exact Hsub]. simpl. apply lookup_delete_eq.
    + apply elem_of_cons in Hin as [Heq | Hin]; [congruence|].
      pose proof (safe_rm_frame _ _ _ _ E1) as (_ & _ & _ & _ & Hsub1).
      destruct (fs s1 !! p) as [f1|] eqn:Hf1.
      * assert (f1 = f) as ->.
        { pose proof (lookup_weaken _ _ _ _ Hf1 Hsub1). congruence. }
        eapply IH; eassumption.
      * eapply lookup_weaken_None; eassumption.
Qed.

Lemma cleanup_unfold (s : state) :
  _cleanup s = for_each (cleanup_paths (configuration s)) _safe_rm s.
Proof. reflexivity. Qed.

(** [_cleanup] does not read the log. *)
Lemma safe_rm_with_log (path : option string) (l : list log_entry) (s : state) :
  _safe_rm path (with_log l s)
  = (fst (_safe_rm path s), with_log l (snd (_safe_rm path s))).
Proof.
  rewrite !safe_rm_cases. simpl fs.
  destruct (path_exists _ _); [destruct (fs s !! _) as [f|]; [destruct (unlink_errno f) as [e|];
    [destruct (e =? ENOENT)|]|]|]; reflexivity.
Qed.

(** The failing input of C7: a certificate that [os.remove] refuses to
    remove ([EACCES]) is registered in the shared configuration, as a
    kubeconfig that names certificate files leaves it.  [_safe_rm] on its
    path raises [NameError], and so does [_cleanup]. *)
Theorem safe_rm_raises_NameError :
  _safe_rm (Some "/etc/kubernetes/pki/ca.crt") protected_ca_state
    = (Raise (NameError "log"), protected_ca_state)
  /\ _cleanup protected_ca_state = (Raise (NameError "log"), protected_ca_state).
Proof. split; vm_compute; reflexivity. Qed.

(** ** The loop over the nodes *)

Lemma host_of_fields (n : node) (h : host_record) :
  host_of n = Ok h ->
  name h = metadata_name n /\ vms h = ∅ /\ totalCpuThreads h = 1
  /\ cpuMhz h = capacity n !! "cpu"
  /\ totalCpuCores h = capacity n !! "cpu"
  /\ totalCpuSockets h = capacity n !! "cpu"
  /\ cpuArch h = normalize_arch (architecture n)
  /\ ram_mb (capacity n !! "memory") = Ok (ramMb h).
Proof.
  unfold host_of. destruct (ram_mb (capacity n !! "memory")) as [memory|e]; simpl;
    [|discriminate].
  intros [= <-]. repeat split.
Qed.

Lemma gather_dom (items : list node) (output out : gmap string host_record) :
  gather items output = Ok out ->
  dom out = dom output ∪ list_to_set (metadata_name <$> items).
Proof.
  revert output. induction items as [|n items IH]; intros output.
  - intros [= <-]. rewrite fmap_nil, list_to_set_nil, (right_id_L ∅ (∪)). reflexivity.
  - cbn [gather]. destruct (host_of n) as [h|e]; cbn [rbind]; [|discriminate].
    intros H. rewrite (IH _ H), dom_insert_L, fmap_cons, list_to_set_cons.
    rewrite (assoc_L (∪)), (comm_L (∪) (dom output)). reflexivity.
Qed.

Lemma gather_lookup_other (items : list node) (output out : gmap string host_record)
    (k : string) :
  gather items output = Ok out -> k ∉ metadata_name <$> items ->
  out !! k = output !! k.
Proof.
  revert output. induction items as [|n items IH]; intros output; simpl.
  - intros [= <-] _. reflexivity.
  - destruct (host_of n) as [h|e]; simpl; [|discriminate].
    intros H Hk. apply not_elem_of_cons in Hk as [Hne Hk].
    rewrite (IH _ H Hk). apply lookup_insert_ne. congruence.
Qed.

Lemma gather_lookup (items : list node) (output out : gmap string host_record) (n : node) :
  gather items output = Ok out -> NoDup (metadata_name <$> items) -> n ∈ items ->
  exists h, host_of n = Ok h /\ out !! metadata_name n = Some h.
Proof.
  revert output. induction items as [|n' items IH]; intros output; simpl.
  - intros _ _ Hin. apply elem_of_nil in Hin. contradiction.
  - destruct (host_of n') as [h|e] eqn:Hh; simpl; [|discriminate].
    intros H Hnd Hin. apply NoDup_cons in Hnd as [Hfresh Hnd].
    apply elem_of_cons in Hin as [-> | Hin].
    + exists h. split; [exact Hh|].
      rewrite (gather_lookup_other _ _ _ _ H Hfresh). apply lookup_insert_eq.
    + eapply IH; eassumption.
Qed.

Lemma gather_size (items : list node) (out : gmap string host_record) :
  gather items ∅ = Ok out -> NoDup (metadata_name <$> items) ->
  size out = length items.
Proof.
  intros H Hnd. rewrite <- size_dom, (gather_dom _ _ _ H), dom_empty_L, (left_id_L ∅ (∪)).
  rewrite size_list_to_set by assumption. apply length_fmap.
Qed.

(** ** [run] *)

Section RunProperties.

Variable b64decode : string -> result string.
Variable tempdir : string.
Variable random_name : gmap string file -> result string.
Variable remove_errno : string -> option Z.
Variable load_kube_config :
  string -> string -> Configuration.t -> gmap string file ->
  result unit * Configuration.t * gmap string file.
Variable list_node : Configuration.t -> result (list node).

Local Notation "'setup'" :=
  (_setup_connection b64decode tempdir random_name remove_errno load_kube_config).
Local Notation "'body'" :=
  (try_except (gather_nodes list_node) caught on_backend_error).
Local Notation "'run_worker'" :=
  (run b64decode tempdir random_name remove_errno load_kube_config list_node).

Lemma run_unfold (s : state) :
  run_worker s =
    match setup s with
    | (Ok _, s1) => try_finally body _cleanup s1
    | (Raise e, s1) => (Raise e, s1)
    end.
Proof. reflexivity. Qed.

Lemma gather_nodes_cases (s : state) :
  gather_nodes list_node s =
    (match list_node (configuration s) with
     | Ok items =>
         match gather items ∅ with
         | Ok output => Ok (Some output)
         | Raise e => Raise e
         end
     | Raise e => Raise e
     end, s).
Proof.
  unfold gather_nodes, bind, get, lift, ret.
  destruct (list_node (configuration s)) as [items|e]; [|reflexivity].
  destruct (gather items ∅); reflexivity.
Qed.

(** The entry the handler writes for the exception [exc]. *)
Lemma on_backend_error_cases (exc : exn) (s : state) :
  on_backend_error exc s =
    (Ok None, with_log (backend_error_entry exc :: log s) s).
Proof.
  destruct exc as [status| | | | | | | | |]; try reflexivity.
  destruct status as [|p|p]; try reflexivity.
  unfold on_backend_error, backend_error_entry.
  destruct (decide (p = 404%positive)) as [-> | Hne]; [reflexivity|].
  repeat (destruct p as [p|p|]; try reflexivity); congruence.
Qed.

(** The [try] with its handler changes nothing but the log. *)
Lemma body_frame (s s' : state) (r : result (option (gmap string host_record))) :
  body s = (r, s') ->
  self s' = self s /\ configuration s' = configuration s /\ fs s' = fs s
  /\ tmpfiles s' = tmpfiles s.
Proof.
  unfold try_except. rewrite gather_nodes_cases.
  destruct (list_node (configuration s)) as [items|e];
    [destruct (gather items ∅) as [output|e]|].
  - intros [= <- <-]. repeat split.
  - destruct (caught e); [rewrite on_backend_error_cases|]; intros [= <- <-]; repeat split.
  - destruct (caught e); [rewrite on_backend_error_cases|]; intros [= <- <-]; repeat split.
Qed.

(** A dictionary is returned only when the query and the loop succeed. *)
Lemma body_Some (s s' : state) (out : gmap string host_record) :
  body s = (Ok (Some out), s') ->
  s' = s /\ exists items, list_node (configuration s) = Ok items /\ gather items ∅ = Ok out.
Proof.
  unfold try_except. rewrite gather_nodes_cases.
  destruct (list_node (configuration s)) as [items|e];
    [destruct (gather items ∅) as [output|e] eqn:Hg|].
  - intros [= <- <-]. split; [reflexivity|]. exists items. split; [reflexivity | exact Hg].
  - destruct (caught e); [rewrite on_backend_error_cases|]; intros [=].
  - destruct (caught e); [rewrite on_backend_error_cases|]; intros [=].
Qed.

Lemma try_finally_Ok {A} (m : M A) (f : M unit) (s s' : state) (a : A) :
  try_finally m f s = (Ok a, s') ->
  exists s1, m s = (Ok a, s1) /\ f s1 = (Ok tt, s').
Proof.
  unfold try_finally. destruct (m s) as [r s1].
  destruct (f s1) as [[[]|e] s2] eqn:Hf; [|discriminate].
  intros [= -> <-]. exists s1. split; [reflexivity | exact Hf].
Qed.

(** C8.  When [run] returns a dictionary, it was built from the items
    that the cluster returned after a successful setup; when the names of
    the items are pairwise distinct, its keys are exactly these names, it
    has as many entries as there are items, and the entry of each item
    holds its name, an empty [vms], [totalCpuThreads = 1], and the raw
    ["cpu"] capacity as [cpuMhz], [totalCpuCores] and [totalCpuSockets].
    In particular two items with different names give exactly two
    keys. *)
Theorem run_one_entry_per_node (s s' : state) (out : gmap string host_record) :
  run_worker s = (Ok (Some out), s') ->
  exists s1 items,
    setup s = (Ok tt, s1)
    /\ list_node (configuration s1) = Ok items
    /\ (NoDup (metadata_name <$> items) ->
        dom out = list_to_set (metadata_name <$> items)
        /\ size out = length items
        /\ (forall n, n ∈ items ->
            exists h, out !! metadata_name n = Some h
              /\ name h = metadata_name n
              /\ vms h = ∅
              /\ totalCpuThreads h = 1
              /\ cpuMhz h = capacity n !! "cpu"
              /\ totalCpuCores h = capacity n !! "cpu"
              /\ totalCpuSockets h = capacity n !! "cpu")
        /\ (forall n1 n2, items = [n1; n2] ->
            dom out = {[metadata_name n1; metadata_name n2]} /\ size out = 2%nat)).
Proof.
  rewrite run_unfold. destruct (setup s) as [[[]|e] s1] eqn:Hsetup; [|discriminate].
  intros H. apply try_finally_Ok in H as (sq & Hbody & _).
  apply body_Some in Hbody as (_ & items & Hitems & Hgather).
  exists s1, items. split; [reflexivity|]. split; [assumption|].
  intros Hnd.
  assert (Hdom : dom out = list_to_set (metadata_name <$> items)).
  { rewrite (gather_dom _ _ _ Hgather), dom_empty_L. apply (left_id_L ∅ (∪)). }
  assert (Hsize : size out = length items) by (apply gather_size; assumption).
  split; [exact Hdom|]. split; [exact Hsize|]. split.
  - intros n Hin.
    destruct (gather_lookup _ _ _ n Hgather Hnd Hin) as (h & Hh & Hlook).
    apply host_of_fields in Hh as (? & ? & ? & ? & ? & ? & _).
    exists h. repeat split; assumption.
  - intros n1 n2 ->. split; [|exact Hsize].
    rewrite Hdom, !fmap_cons, fmap_nil, !list_to_set_cons, list_to_set_nil.
    rewrite (right_id_L ∅ (∪)). reflexivity.
Qed.


Lemma cleanup_with_log (l : list log_entry) (s s' : state) (r : result unit) :
  _cleanup s = (r, s') -> _cleanup (with_log l s) = (r, with_log l s').
Proof.
  rewrite !cleanup_unfold. simpl configuration.
  generalize (cleanup_paths (configuration s)). intros paths. revert s.
  induction paths as [|x paths IH]; intros s; simpl.
  - intros [= <- <-]. reflexivity.
  - unfold bind. rewrite safe_rm_with_log.
    destruct (_safe_rm x s) as [[[]|e] s1]; simpl.
    + apply IH.
    + intros [= <- <-]. reflexivity.
Qed.

(** C3 (as amended).  When setup has completed, the query raises
    [ApiException] (with status 404 or any other) or [HTTPError], and
    teardown raises nothing, [run] returns [None] and has written one
    entry to the log. *)
Theorem run_backend_error_returns_None (s s1 s2 : state) (e : exn) :
  setup s = (Ok tt, s1) ->
  list_node (configuration s1) = Raise e ->
  caught e = true ->
  _cleanup (with_log (backend_error_entry e :: log s1) s1) = (Ok tt, s2) ->
  run_worker s = (Ok None, s2) /\ log s2 = backend_error_entry e :: log s1.
Proof.
  intros Hsetup Hquery Hcaught Hclean.
  rewrite run_unfold, Hsetup. unfold try_finally, try_except.
  rewrite gather_nodes_cases, Hquery, Hcaught, on_backend_error_cases, Hclean.
  split; [reflexivity|].
  rewrite cleanup_unfold in Hclean.
  apply for_each_safe_rm_frame in Hclean as (_ & _ & Hlog & _). exact Hlog.
Qed.

(** An exception of the query that the handler does not catch leaves
    [run], after teardown. *)
Lemma run_other_error_propagates (s s1 s2 : state) (e : exn) :
  setup s = (Ok tt, s1) ->
  list_node (configuration s1) = Raise e ->
  caught e = false ->
  _cleanup s1 = (Ok tt, s2) ->
  run_worker s = (Raise e, s2).
Proof.
  intros Hsetup Hquery Hcaught Hclean.
  rewrite run_unfold, Hsetup. unfold try_finally, try_except.
  rewrite gather_nodes_cases, Hquery, Hcaught, Hclean. reflexivity.
Qed.

(** An exception of setup leaves [run] at once: teardown does not run. *)
Lemma run_setup_error_propagates (s s1 : state) (e : exn) :
  setup s = (Raise e, s1) -> run_worker s = (Raise e, s1).
Proof. intros Hsetup. rewrite run_unfold, Hsetup. reflexivity. Qed.

(** Setup with a kubeconfig and a context: the call of the loader and
    nothing else. *)
Lemma setup_kubeconfig (s : state) (kc cx : string) :
  kubeconfig (self s) = Attr (Some kc) -> context (self s) = Attr (Some cx) ->
  kc <> "" -> cx <> "" ->
  setup s =
    (let '(r, c, f) := load_kube_config kc cx (configuration s) (fs s) in
     (r, with_fs f (with_configuration c s))).
Proof.
  intros Hkc Hcx Hk Hc. apply String.eqb_neq in Hk, Hc.
  unfold _setup_connection, bind, get. rewrite Hkc, Hcx.
  cbn [getattr ret truthy]. rewrite Hk. cbn [negb getattr ret truthy].
  rewrite Hc. reflexivity.
Qed.

(** C9.  On the kubeconfig path, setup is the call of the loader alone: it
    creates no temporary file.  Teardown then runs [_safe_rm] on the three
    paths that the shared configuration holds after the loader, whoever
    stored them there; when [run] returns, each of these paths that
    [os.remove] removes is gone, although the run did not create it. *)
Theorem run_kubeconfig_cleans_shared_paths (s : state) (kc cx : string)
    (c1 : Configuration.t) (f1 : gmap string file) :
  kubeconfig (self s) = Attr (Some kc) -> context (self s) = Attr (Some cx) ->
  kc <> "" -> cx <> "" ->
  load_kube_config kc cx (configuration s) (fs s) = (Ok tt, c1, f1) ->
  setup s = (Ok tt, with_fs f1 (with_configuration c1 s))
  /\ tmpfiles (snd (run_worker s)) = tmpfiles s
  /\ (exists sq, configuration sq = c1 /\ fs sq = f1
       /\ snd (run_worker s) = snd (for_each (cleanup_paths c1) _safe_rm sq))
  /\ (forall out p f,
        fst (run_worker s) = Ok out ->
        Some p ∈ cleanup_paths c1 -> p <> "" ->
        f1 !! p = Some f -> unlink_errno f = None ->
        fs (snd (run_worker s)) !! p = None).
Proof.
  intros Hkc Hcx Hk Hc Hload.
  assert (Hsetup : setup s = (Ok tt, with_fs f1 (with_configuration c1 s))).
  { rewrite (setup_kubeconfig s kc cx) by assumption. rewrite Hload. reflexivity. }
  split; [exact Hsetup|].
  rewrite run_unfold, Hsetup. unfold try_finally.
  destruct (body (with_fs f1 (with_configuration c1 s))) as [r sq] eqn:Hbody.
  apply body_frame in Hbody as (_ & Hconf & Hfs & Htmp). simpl in Hconf, Hfs, Htmp.
  rewrite cleanup_unfold, Hconf.
  destruct (for_each (cleanup_paths c1) _safe_rm sq) as [rc s'] eqn:Hclean.
  pose proof (for_each_safe_rm_frame _ _ _ _ Hclean) as (_ & _ & _ & Htmp' & _).
  destruct rc as [[]|e]; cbn [fst snd].
  - split; [congruence|]. split.
    + exists sq. split; [exact Hconf|]. split; [exact Hfs | rewrite Hclean; reflexivity].
    + intros out p f _ Hin Hp Hf Hu.
      eapply for_each_safe_rm_removed; try eassumption. rewrite Hfs. exact Hf.
  - split; [congruence|]. split.
    + exists sq. split; [exact Hconf|]. split; [exact Hfs | rewrite Hclean; reflexivity].
    + intros out p f Hout. discriminate Hout.
Qed.


(** *** The explicit-endpoint path *)

Lemma bind_Ok {A B} (m : M A) (k : A -> M B) (s s' : state) (b : B) :
  bind m k s = (Ok b, s') -> exists a s1, m s = (Ok a, s1) /\ k a s1 = (Ok b, s').
Proof.
  unfold bind. destruct (m s) as [[a|e] s1]; [|discriminate].
  intros H. exists a, s1. split; [reflexivity | exact H].
Qed.

Lemma NamedTemporaryFile_Ok (s s' : state) (path : string) :
  NamedTemporaryFile tempdir random_name remove_errno s = (Ok path, s') ->
  path <> "" /\ fs s !! path = None
  /\ s' = with_tmpfiles (path :: tmpfiles s)
            (with_fs (<[path := File "" (remove_errno path)]> (fs s)) s).
Proof.
  unfold NamedTemporaryFile. destruct (random_name (fs s)) as [name|e]; [|discriminate].
  destruct (fs s !! (tempdir +:+ "/kube-" +:+ name)) eqn:Hfree; [discriminate|].
  intros [= <- <-]. split; [|split; [exact Hfree | reflexivity]].
  destruct tempdir; discriminate.
Qed.

(** What a [with NamedTemporaryFile ...] block has done when it completes. *)
Lemma materialize_Ok (field : option string)
    (register : option string -> Configuration.t -> Configuration.t) (s s' : state) :
  materialize b64decode tempdir random_name remove_errno field register s = (Ok tt, s') ->
  s' = s
  \/ exists path bytes,
       path <> "" /\ fs s !! path = None
       /\ s' = with_configuration (register (Some path) (configuration s))
                 (with_tmpfiles (path :: tmpfiles s)
                    (with_fs (<[path := File bytes (remove_errno path)]> (fs s)) s)).
Proof.
  unfold materialize. destruct (truthy field); [|intros [= <-]; left; reflexivity].
  intros H. right.
  apply bind_Ok in H as (path & s1 & Hfile & H).
  apply NamedTemporaryFile_Ok in Hfile as (Hpath & Hfree & ->).
  apply bind_Ok in H as (bytes & s2 & Hdecode & H).
  unfold lift in Hdecode. injection Hdecode as Hdecode <-.
  unfold bind, write, modify in H. cbn [fs with_tmpfiles with_fs] in H.
  rewrite lookup_insert_eq in H. cbn in H. injection H as <-.
  exists path, bytes. split; [exact Hpath|]. split; [exact Hfree|].
  rewrite insert_insert_eq. reflexivity.
Qed.

Lemma registered_frame (s0 s s' : state) (created : list string) :
  registered s0 s created ->
  tmpfiles s' = tmpfiles s -> configuration s' = configuration s -> fs s' = fs s ->
  registered s0 s' created.
Proof. unfold registered. intros H -> -> ->. exact H. Qed.

Lemma materialize_configuration (field : option string)
    (register : option string -> Configuration.t -> Configuration.t) (s s' : state) :
  materialize b64decode tempdir random_name remove_errno field register s = (Ok tt, s') ->
  self s' = self s
  /\ (configuration s' = configuration s
      \/ exists path, configuration s' = register (Some path) (configuration s)).
Proof.
  intros H. apply materialize_Ok in H as [-> | (path & bytes & _ & _ & ->)].
  - split; [reflexivity | left; reflexivity].
  - split; [reflexivity | right; exists path; reflexivity].
Qed.

(** A block that completes keeps the files registered, when [os.remove]
    removes the files that [tempfile] creates and the attribute the block
    writes held no path before: registering a path adds it to the paths of
    the configuration and removes none. *)
Lemma materialize_registered (field : option string)
    (register : option string -> Configuration.t -> Configuration.t)
    (s0 s s' : state) (created : list string) :
  (forall p, remove_errno p = None) ->
  (forall path p,
     Some p ∈ cleanup_paths (register (Some path) (configuration s))
     <-> p = path \/ Some p ∈ cleanup_paths (configuration s)) ->
  registered s0 s created ->
  materialize b64decode tempdir random_name remove_errno field register s = (Ok tt, s') ->
  exists created', registered s0 s' created'.
Proof.
  intros Hrm Hnew (Htmp & Hreg & Hfiles) H.
  apply materialize_Ok in H as [-> | (path & bytes & Hpath & Hfree & ->)].
  - exists created. split; [exact Htmp|]. split; assumption.
  - exists (path :: created). split; [|split].
    + cbn. rewrite Htmp. reflexivity.
    + intros p. cbn [configuration with_configuration].
      rewrite elem_of_cons, Hnew, Hreg. reflexivity.
    + intros p. cbn [fs with_configuration with_tmpfiles with_fs]. rewrite elem_of_cons.
      intros [-> | Hin].
      * split; [exact Hpath|]. exists (File bytes (remove_errno path)).
        split; [apply lookup_insert_eq | apply Hrm].
      * destruct (Hfiles p Hin) as (Hp & f & Hf & Hu).
        split; [exact Hp|]. exists f. split; [|exact Hu].
        rewrite lookup_insert_ne; [exact Hf|]. congruence.
Qed.

Lemma paths_set_ssl_ca_cert (c : Configuration.t) (path p : string) :
  Configuration.ssl_ca_cert c = None ->
  Some p ∈ cleanup_paths (Configuration.set_ssl_ca_cert (Some path) c)
  <-> p = path \/ Some p ∈ cleanup_paths c.
Proof.
  intros H. unfold cleanup_paths. cbn. rewrite H, !elem_of_cons, !elem_of_nil.
  assert (Hnone : Some p = None <-> False) by (split; [discriminate | contradiction]).
  rewrite (inj_iff Some), Hnone. tauto.
Qed.

Lemma paths_set_cert_file (c : Configuration.t) (path p : string) :
  Configuration.cert_file c = None ->
  Some p ∈ cleanup_paths (Configuration.set_cert_file (Some path) c)
  <-> p = path \/ Some p ∈ cleanup_paths c.
Proof.
  intros H. unfold cleanup_paths. cbn. rewrite H, !elem_of_cons, !elem_of_nil.
  assert (Hnone : Some p = None <-> False) by (split; [discriminate | contradiction]).
  rewrite (inj_iff Some), Hnone. tauto.
Qed.

Lemma paths_set_key_file (c : Configuration.t) (path p : string) :
  Configuration.key_file c = None ->
  Some p ∈ cleanup_paths (Configuration.set_key_file (Some path) c)
  <-> p = path \/ Some p ∈ cleanup_paths c.
Proof.
  intros H. unfold cleanup_paths. cbn. rewrite H, !elem_of_cons, !elem_of_nil.
  assert (Hnone : Some p = None <-> False) by (split; [discriminate | contradiction]).
  rewrite (inj_iff Some), Hnone. tauto.
Qed.

(** After a setup that did not take the kubeconfig path, the temporary
    files it created are exactly the paths of the shared configuration;
    they are files that [os.remove] removes when it removes the files that
    [tempfile] creates. *)
Lemma setup_url_registered (s s1 : state) (kc cx : option string) :
  (forall p, remove_errno p = None) ->
  kubeconfig (self s) = Attr kc -> context (self s) = Attr cx ->
  truthy kc && truthy cx = false ->
  setup s = (Ok tt, s1) ->
  exists created, registered s s1 created.
Proof.
  intros Hrm Hkc Hcx Hpath. unfold _setup_connection.
  intros H. apply bind_Ok in H as (s' & ? & [= <- <-] & H).
  rewrite Hkc in H. apply bind_Ok in H as (kc' & ? & [= <- <-] & H).
  assert (Hboth : forall cx' : option string,
            (if truthy kc then getattr (context (self s)) "context" else ret None) s
            = (Ok cx', s) -> truthy kc && truthy cx' = false).
  { intros cx'. destruct (truthy kc) eqn:Ekc; [|reflexivity].
    rewrite Hcx. intros [= <-]. exact Hpath. }
  apply bind_Ok in H as (cx' & s' & Hcx' & H).
  assert (s' = s) as ->.
  { destruct (truthy kc); [rewrite Hcx in Hcx'|]; injection Hcx' as _ <-; reflexivity. }
  rewrite (Hboth cx' Hcx') in H. clear Hboth Hcx'.
  apply bind_Ok in H as ([] & sa & [= <-] & H).
  apply bind_Ok in H as ([] & sb & [= <-] & H).
  apply bind_Ok in H as ([] & sc & [= <-] & H).
  apply bind_Ok in H as ([] & sd & [= <-] & H).
  apply bind_Ok in H as ([] & se & Hca & H).
  apply bind_Ok in H as ([] & sf & Hcert & Hkey).
  set (c0 := Configuration.set_passwd (password (self s))
               (Configuration.set_user (user (self s))
                  (Configuration.set_host (url (self s)) Configuration.init))) in *.
  match type of Hca with
  | materialize _ _ _ _ _ _ ?sa = _ =>
      change sa with (with_configuration c0 s) in Hca
  end.
  assert (H0 : registered s (with_configuration c0 s) []).
  { split; [reflexivity|]. split.
    - intros p. unfold cleanup_paths. cbn.
      rewrite !elem_of_cons, !elem_of_nil.
      assert (Hnone : Some p = None <-> False) by (split; [discriminate | contradiction]).
      rewrite Hnone. tauto.
    - intros p Hin. apply elem_of_nil in Hin. contradiction. }
  pose proof (materialize_configuration _ _ _ _ Hca) as [_ Hconf_e].
  destruct (materialize_registered (ca_cert (self s)) Configuration.set_ssl_ca_cert
              s (with_configuration c0 s) se [] Hrm ltac:(
              intros path p; apply paths_set_ssl_ca_cert; reflexivity) H0 Hca)
    as (created1 & H1).
  assert (Hnone_e : Configuration.cert_file (configuration se) = None
                    /\ Configuration.key_file (configuration se) = None).
  { destruct Hconf_e as [-> | [path ->]]; split; reflexivity. }
  destruct Hnone_e as [Hcert_none Hkey_none].
  pose proof (materialize_configuration _ _ _ _ Hcert) as [_ Hconf_f].
  destruct (materialize_registered (client_cert (self s)) Configuration.set_cert_file
              s se sf created1 Hrm ltac:(
              intros path p; apply paths_set_cert_file; exact Hcert_none) H1 Hcert)
    as (created2 & H2).
  assert (Hkey_none' : Configuration.key_file (configuration sf) = None).
  { destruct Hconf_f as [-> | [path ->]]; exact Hkey_none. }
  destruct (materialize_registered (client_key (self s)) Configuration.set_key_file
              s sf s1 created2 Hrm ltac:(
              intros path p; apply paths_set_key_file; exact Hkey_none') H2 Hkey)
    as (created3 & H3).
  exists created3. exact H3.
Qed.

(** When every listed path is absent or a file that [os.remove] removes,
    the loop of [_cleanup] completes. *)
Lemma for_each_safe_rm_completes (l : list (option string)) (s : state) :
  (forall p f, Some p ∈ l -> fs s !! p = Some f -> unlink_errno f = None) ->
  exists s', for_each l _safe_rm s = (Ok tt, s').
Proof.
  revert s. induction l as [|x l IH]; intros s Hok.
  - exists s. reflexivity.
  - cbn [for_each]. unfold bind.
    destruct (_safe_rm x s) as [r s1] eqn:E1.
    pose proof (safe_rm_frame _ _ _ _ E1) as (_ & _ & _ & _ & Hsub).
    assert (r = Ok tt) as ->.
    { rewrite safe_rm_cases in E1.
      destruct (path_exists (fs s) (path_of x)) eqn:Hex; [|congruence].
      destruct x as [p|]; [|discriminate Hex]. cbn [path_of] in *.
      destruct (fs s !! p) as [f|] eqn:Hf; [|congruence].
      rewrite (Hok p f (list_elem_of_here _ _) Hf) in E1. congruence. }
    apply IH. intros p f Hin Hf.
    apply (Hok p f); [right; exact Hin|]. eapply lookup_weaken; eassumption.
Qed.

(** Teardown of registered files: it completes and all of them are gone. *)
Lemma cleanup_registered (s0 s : state) (created : list string) :
  registered s0 s created ->
  exists s', _cleanup s = (Ok tt, s')
    /\ tmpfiles s' = created ++ tmpfiles s0
    /\ forall p, p ∈ created -> fs s' !! p = None.
Proof.
  intros (Htmp & Hreg & Hfiles). rewrite cleanup_unfold.
  destruct (for_each_safe_rm_completes (cleanup_paths (configuration s)) s) as [s' Hs'].
  { intros p f Hin Hf. apply Hreg, Hfiles in Hin as (_ & f' & Hf' & Hu). congruence. }
  exists s'. split; [exact Hs'|].
  pose proof (for_each_safe_rm_frame _ _ _ _ Hs') as (_ & _ & _ & Htmp' & _).
  split; [congruence|].
  intros p Hin. destruct (Hfiles p Hin) as (Hp & f & Hf & Hu).
  eapply for_each_safe_rm_removed; try eassumption. apply Hreg, Hin.
Qed.

(** On the explicit-endpoint path, once setup has completed, and when
    [os.remove] removes the files that [tempfile] creates: teardown raises
    nothing, so the outcome of [run] is that of the query with its
    handler, and every temporary file that the call created is gone when
    [run] returns or raises. *)
Theorem run_url_path_removes_tmpfiles (s s1 : state) (kc cx : option string) :
  (forall p, remove_errno p = None) ->
  kubeconfig (self s) = Attr kc -> context (self s) = Attr cx ->
  truthy kc && truthy cx = false ->
  setup s = (Ok tt, s1) ->
  fst (run_worker s) = fst (body s1)
  /\ exists created,
       tmpfiles (snd (run_worker s)) = created ++ tmpfiles s
       /\ forall p, p ∈ created -> fs (snd (run_worker s)) !! p = None.
Proof.
  intros Hrm Hkc Hcx Hpath Hsetup.
  destruct (setup_url_registered s s1 kc cx Hrm Hkc Hcx Hpath Hsetup) as (created & Hreg).
  rewrite run_unfold, Hsetup. unfold try_finally.
  destruct (body s1) as [r sq] eqn:Hbody.
  apply body_frame in Hbody as (_ & Hconf & Hfs & Htmp).
  pose proof (registered_frame _ _ sq _ Hreg Htmp Hconf Hfs) as Hreg'.
  destruct (cleanup_registered _ _ _ Hreg') as (s' & -> & Htmp' & Hgone).
  cbn [fst snd]. split; [reflexivity|].
  exists created. split; assumption.
Qed.

End RunProperties.

(** ** The properties on the examples *)

(** [configured_state] is the process after [set_node] with
    [example_node_url]. *)
Example set_node_example_node_url :
  set_node example_node_url initial_state = (Ok tt, configured_state).
Proof. vm_compute. reflexivity. Qed.

Lemma run_one_entry_per_node_witness :
  exists out s',
    example_run example_list_node configured_state = (Ok (Some out), s')
    /\ dom out = {["worker-1"; "worker-2"]}
    /\ size out = 2%nat.
Proof.
  pose (r := example_run example_list_node configured_state).
  pose (out := match fst r with Ok (Some o) => o | _ => ∅ end).
  assert (E : example_run example_list_node configured_state = (Ok (Some out), snd r))
    by (vm_compute; reflexivity).
  exists out, (snd r). split; [exact E|].
  destruct (run_one_entry_per_node _ _ _ _ _ _ _ _ _ E) as (s1 & items & _ & Hitems & Hall).
  injection Hitems as <-.
  assert (Hnd : NoDup (metadata_name <$> [example_node_1; example_node_2])).
  { apply NoDup_cons. split; [|apply NoDup_singleton].
    intros Hin. apply list_elem_of_singleton in Hin. discriminate Hin. }
  destruct (Hall Hnd) as (_ & _ & _ & Htwo).
  exact (Htwo example_node_1 example_node_2 eq_refl).
Defined.

Lemma run_backend_error_returns_None_witness :
  example_run example_list_node_404 configured_state = (Ok None, after_404)
  /\ log after_404
     = backend_error_entry (ApiException 404) :: log configured_after_setup.
Proof.
  assert (H1 : _setup_connection b64decode_py "/tmp" example_random_name
                 example_remove_errno example_load_kube_config configured_state
               = (Ok tt, configured_after_setup))
    by (vm_compute; reflexivity).
  assert (H2 : example_list_node_404 (configuration configured_after_setup)
               = Raise (ApiException 404))
    by reflexivity.
  assert (H3 : caught (ApiException 404) = true) by reflexivity.
  assert (H4 : _cleanup
                 (with_log
                    (backend_error_entry (ApiException 404) :: log configured_after_setup)
                    configured_after_setup)
               = (Ok tt, after_404))
    by (vm_compute; reflexivity).
  exact (run_backend_error_returns_None b64decode_py "/tmp" example_random_name
           example_remove_errno example_load_kube_config example_list_node_404
           configured_state configured_after_setup after_404 (ApiException 404)
           H1 H2 H3 H4).
Defined.

(** C3, as stated, fails: an exception that is neither [ApiException] nor
    [HTTPError] leaves [run].  A node without a ["memory"] capacity makes
    the loop raise [TypeError]; a CA certificate that is not base64 makes
    setup raise the decoder's error. *)
Lemma run_raises_other_errors :
  fst (example_run example_list_node_no_memory configured_state) = Raise TypeError
  /\ fst bad_ca_run = Raise BinasciiError.
Proof. split; vm_compute; reflexivity. Qed.

Lemma run_kubeconfig_cleans_shared_paths_witness :
  fs stale_state !! "/tmp/kube-8c0z1kq2" = Some (File "data of another program" None)
  /\ tmpfiles (snd (example_run example_list_node stale_state)) = tmpfiles stale_state
  /\ fs (snd (example_run example_list_node stale_state)) !! "/tmp/kube-8c0z1kq2" = None.
Proof.
  pose (c1 := Configuration.set_host (Some "https://k8s.example.com:6443")
                (configuration stale_state)).
  assert (Hkc : kubeconfig (self stale_state) = Attr (Some "/root/.kube/config"))
    by (vm_compute; reflexivity).
  assert (Hcx : context (self stale_state) = Attr (Some "production"))
    by (vm_compute; reflexivity).
  assert (Hk : "/root/.kube/config" <> "") by discriminate.
  assert (Hc : "production" <> "") by discriminate.
  assert (Hload : example_load_kube_config "/root/.kube/config" "production"
                    (configuration stale_state) (fs stale_state)
                  = (Ok tt, c1, fs stale_state)) by reflexivity.
  assert (Hf : fs stale_state !! "/tmp/kube-8c0z1kq2"
               = Some (File "data of another program" None))
    by (vm_compute; reflexivity).
  destruct (run_kubeconfig_cleans_shared_paths b64decode_py "/tmp" example_random_name
              example_remove_errno example_load_kube_config example_list_node stale_state
              "/root/.kube/config" "production" c1 (fs stale_state)
              Hkc Hcx Hk Hc Hload) as (_ & Htmp & _ & Hgone).
  split; [exact Hf|]. split; [exact Htmp|].
  pose (out := match fst (example_run example_list_node stale_state) with
               | Ok o => o
               | Raise _ => None
               end).
  assert (Hout : fst (example_run example_list_node stale_state) = Ok out)
    by (vm_compute; reflexivity).
  assert (Hin : Some "/tmp/kube-8c0z1kq2" ∈ cleanup_paths c1)
    by (vm_compute; apply list_elem_of_here).
  assert (Hp : "/tmp/kube-8c0z1kq2" <> "") by discriminate.
  exact (Hgone out "/tmp/kube-8c0z1kq2" (File "data of another program" None)
           Hout Hin Hp Hf eq_refl).
Defined.

(** The failing input of C1: [set_node] with an endpoint and a CA
    certificate that is not base64, then [run].  Setup creates the
    temporary file and then raises the decoder's error; the error leaves
    [run] before the [try] whose [finally] is the teardown, and the file
    that the call created is still there.  The same happens with
    well-formed credentials when the second temporary file cannot be
    created: the first one, which holds the decoded CA certificate, stays. *)
Theorem run_leaves_tmpfile_on_setup_error :
  fs initial_state !! "/tmp/kube-8c0z1kq2" = None
  /\ (fst bad_ca_run = Raise BinasciiError
      /\ tmpfiles (snd bad_ca_run) = ["/tmp/kube-8c0z1kq2"]
      /\ fs (snd bad_ca_run) !! "/tmp/kube-8c0z1kq2" = Some (File "" None))
  /\ (fst full_tmp_run = Raise (OSError ENOSPC)
      /\ tmpfiles (snd full_tmp_run) = ["/tmp/kube-8c0z1kq2"]
      /\ fs (snd full_tmp_run) !! "/tmp/kube-8c0z1kq2" = Some (File "CA CERT" None)).
Proof. repeat split; vm_compute; reflexivity. Qed.

Lemma run_url_path_removes_tmpfiles_witness :
  fst (example_run example_list_node configured_state)
  = fst (try_except (gather_nodes example_list_node) caught on_backend_error
           configured_after_setup)
  /\ exists created,
       tmpfiles (snd (example_run example_list_node configured_state))
       = created ++ tmpfiles configured_state
       /\ forall p, p ∈ created ->
          fs (snd (example_run example_list_node configured_state)) !! p = None.
Proof.
  assert (H1 : kubeconfig (self configured_state) = Attr None) by reflexivity.
  assert (H2 : context (self configured_state) = Attr None) by reflexivity.
  assert (H3 : truthy None && truthy None = false) by reflexivity.
  assert (H4 : _setup_connection b64decode_py "/tmp" example_random_name
                 example_remove_errno example_load_kube_config configured_state
               = (Ok tt, configured_after_setup))
    by (vm_compute; reflexivity).
  exact (run_url_path_removes_tmpfiles b64decode_py "/tmp" example_random_name
           example_remove_errno example_load_kube_config example_list_node
           configured_state configured_after_setup None None
           (fun p => eq_refl) H1 H2 H3 H4).
Defined.

(** Without that condition the files stay: in a temporary directory where
    [os.remove] fails with [EACCES], the same run from [configured_state]
    ends in the [NameError] of [_safe_rm] at the first file, and the three
    files it created are still there. *)
Example run_refused_removal_keeps_tmpfiles :
  fst (run b64decode_py "/tmp" example_random_name (fun _ => Some EACCES)
         example_load_kube_config example_list_node configured_state)
  = Raise (NameError "log")
  /\ dom (fs (snd (run b64decode_py "/tmp" example_random_name (fun _ => Some EACCES)
                     example_load_kube_config example_list_node configured_state)))
     = {["/tmp/kube-8c0z1kq2"; "/tmp/kube-v3w9xh5m"; "/tmp/kube-p7r4d2ty"]}.
Proof. split; vm_compute; reflexivity. Qed.

(** On the example, the three temporary files of the run are created and
    removed. *)
Example example_run_tmpfiles :
  tmpfiles (snd (example_run example_list_node configured_state))
  = ["/tmp/kube-p7r4d2ty"; "/tmp/kube-v3w9xh5m"; "/tmp/kube-8c0z1kq2"]
  /\ fs (snd (example_run example_list_node configured_state)) = ∅
  /\ data <$> fs configured_after_setup
     = {["/tmp/kube-8c0z1kq2" := "CA CERT"; "/tmp/kube-v3w9xh5m" := "CERT";
         "/tmp/kube-p7r4d2ty" := "KEY"]}.
Proof. repeat split; vm_compute; reflexivity. Qed.

(** * Further properties of the module *)

(** ** [parameters] and [set_node] *)

(** [set_node] returns normally exactly when [url] is non-empty or
    [kubeconfig] and [context] are both non-empty; in every other case it
    raises [AttributeError]. *)
Theorem set_node_succeeds_iff (node : gmap string string) (s : state) :
  ((exists s', set_node node s = (Ok tt, s'))
   <-> truthy (node !! "url") = true
       \/ (truthy (node !! "kubeconfig") = true /\ truthy (node !! "context") = true))
  /\ ((exists s', set_node node s = (Raise (AttributeError missing_parameter), s'))
      <-> truthy (node !! "url") = false
          /\ (truthy (node !! "kubeconfig") = false \/ truthy (node !! "context") = false)).
Proof.
  destruct (set_node_cases node s) as [[Hok ->] | [[Hu Hk] ->]].
  - split; split.
    + intros _. destruct Hok as [? | Hk]; [left; assumption|].
      right. apply andb_true_iff in Hk. exact Hk.
    + intros _. eexists. reflexivity.
    + intros [s' [=]].
    + intros [Hu [Hk | Hc]]; destruct Hok as [? | Hb]; try congruence;
        apply andb_true_iff in Hb as [? ?]; congruence.
  - apply andb_false_iff in Hk. split; split.
    + intros [s' [=]].
    + intros [? | [? ?]]; [congruence|]. destruct Hk; congruence.
    + intros _. split; assumption.
    + intros _. eexists. reflexivity.
Qed.

(** A successful [set_node] replaces the whole configuration of the
    worker: after two successful calls the state is the one the second call
    alone gives, nothing of the first mapping is left. *)
Theorem set_node_overwrites (node1 node2 : gmap string string) (s s1 s2 : state) :
  set_node node1 s = (Ok tt, s1) ->
  set_node node2 s1 = (Ok tt, s2) ->
  set_node node2 s = (Ok tt, s2).
Proof.
  intros H1 H2.
  destruct (set_node_cases node1 s) as [[_ E1] | [_ E1]]; rewrite E1 in H1; [|discriminate].
  injection H1 as <-.
  destruct (set_node_cases node2 s) as [[Hok E] | [[Hu Hk] E]].
  - rewrite E. destruct (set_node_cases node2 (with_self
        (Worker (node1 !! "url") (node1 !! "username") (node1 !! "password")
           (node1 !! "client-cert") (node1 !! "client-key") (node1 !! "ca-cert")
           (Attr (node1 !! "kubeconfig")) (Attr (node1 !! "context"))) s))
      as [[_ E2] | [_ E2]]; rewrite E2 in H2; [|discriminate].
    injection H2 as <-. reflexivity.
  - destruct (set_node_cases node2 (with_self
        (Worker (node1 !! "url") (node1 !! "username") (node1 !! "password")
           (node1 !! "client-cert") (node1 !! "client-key") (node1 !! "ca-cert")
           (Attr (node1 !! "kubeconfig")) (Attr (node1 !! "context"))) s))
      as [[[Hu' | Hk'] _] | [_ E2]]; [congruence | congruence |].
    rewrite E2 in H2. discriminate.
Qed.

Lemma declared_key (k : string) :
  k ∈ DEFAULT_PARAMETERS.*1 <->
  k = "url" \/ k = "username" \/ k = "password" \/ k = "client-cert"
  \/ k = "client-key" \/ k = "ca-cert" \/ k = "kubeconfig" \/ k = "context".
Proof.
  unfold DEFAULT_PARAMETERS. cbn [fmap list_fmap fst].
  rewrite !elem_of_cons, elem_of_nil. tauto.
Qed.

(** [set_node] reads the keys that [parameters] declares and no other: two
    mappings that agree on these keys have the same effect, and the
    defaults alone, all empty, are rejected. *)
Theorem set_node_reads_declared_parameters (w : worker) (s : state) :
  (forall node1 node2 : gmap string string,
     (forall k, k ∈ (parameters w).*1 -> node1 !! k = node2 !! k) ->
     set_node node1 s = set_node node2 s)
  /\ set_node (list_to_map (parameters w)) s
     = (Raise (AttributeError missing_parameter),
        with_log (LogError missing_parameter :: log s) s).
Proof.
  split.
  - intros node1 node2 H. unfold parameters in H.
    assert (Hk : forall k,
              k = "url" \/ k = "username" \/ k = "password" \/ k = "client-cert"
              \/ k = "client-key" \/ k = "ca-cert" \/ k = "kubeconfig" \/ k = "context" ->
              node1 !! k = node2 !! k)
      by (intros k Hin; apply H, declared_key, Hin).
    unfold set_node, _validate_parameters.
    rewrite (Hk "url"), (Hk "username"), (Hk "password"), (Hk "client-cert"),
      (Hk "client-key"), (Hk "ca-cert"), (Hk "kubeconfig"), (Hk "context") by tauto.
    reflexivity.
  - destruct (set_node_cases (list_to_map (parameters w)) s) as [[[Hu | Hk] _] | [_ E]].
    + vm_compute in Hu. discriminate.
    + vm_compute in Hk. discriminate.
    + exact E.
Qed.

(** ** The memory of a node, continued *)

Lemma fold_digits_app (l : list ascii) (c : ascii) (acc : Z) :
  fold_left (fun a c => 10 * a + digit_value c) (l ++ [c]) acc
  = 10 * fold_left (fun a c => 10 * a + digit_value c) l acc + digit_value c.
Proof. rewrite fold_left_app. reflexivity. Qed.

Lemma list_snoc_inv {A} (l : list A) :
  l <> [] -> exists l' x, l = l' ++ [x].
Proof.
  intros H. destruct (exists_last H) as (l' & x & ->). exists l', x. reflexivity.
Qed.

Lemma length_list_ascii_of_string (s : string) :
  length (list_ascii_of_string s) = String.length s.
Proof. induction s as [|c s IH]; cbn; [reflexivity | rewrite IH; reflexivity]. Qed.

(** A capacity written as a plain number, without a unit: the last digit is
    taken for the unit, so the memory is the number without its last digit
    (the number divided by ten and truncated), as long as what is left has
    no more digits than [int] converts; a single digit does not match and
    gives 0. *)
Theorem ram_mb_plain_number (s : string) :
  all_digits s = true ->
  Z.of_nat (String.length s) <= max_str_digits + 1 ->
  ram_mb (Some s) = Ok (decimal_value s / 10).
Proof.
  unfold all_digits. intros Hd Hlen.
  rewrite <- length_list_ascii_of_string in Hlen.
  destruct (list_ascii_of_string s) as [|c0 l0] eqn:El.
  { destruct s; [reflexivity | discriminate El]. }
  destruct (list_snoc_inv (c0 :: l0)) as (m & c & Hsnoc); [discriminate|].
  rewrite Hsnoc in Hd. rewrite forallb_app in Hd.
  apply andb_true_iff in Hd as [Hm Hc]. cbn in Hc. rewrite andb_true_r in Hc.
  assert (Hval : decimal_value s / 10
                 = fold_left (fun a c => 10 * a + digit_value c) m 0).
  { unfold decimal_value. rewrite El, Hsnoc, fold_digits_app.
    pose proof (digit_value_range c Hc).
    rewrite Z.mul_comm, Z.div_add_l by lia. rewrite Z.div_small by lia. lia. }
  rewrite Hval.
  destruct m as [|c1 m].
  - (* one digit: no match *)
    assert (Hno : reg_match s = None).
    { apply reg_match_None. intros (m' & u' & (r & Hl & Hr) & Hm' & _ & Hu' & _).
      rewrite El, Hsnoc in Hl. destruct m' as [|a m']; [congruence|].
      destruct u' as [|b u']; [congruence|].
      cbn in Hl. injection Hl as _ Hl. destruct m'; discriminate Hl. }
    rewrite (ram_mb_no_match _ Hno). reflexivity.
  - assert (Hg : groups s (string_of_list_ascii (c1 :: m)) (string_of_list_ascii [c])).
    { unfold groups. rewrite !list_ascii_of_string_of_list_ascii, El, Hsnoc.
      split; [split; [|split; [|split; [|split]]]|].
      - exists []. split; [rewrite app_nil_r; reflexivity | left; reflexivity].
      - discriminate.
      - exact Hm.
      - discriminate.
      - cbn. rewrite (is_digit_word _ Hc). reflexivity.
      - intros ? ? [= <- <-] _. reflexivity. }
    assert (Hu1 : string_of_list_ascii [c] <> "Ki") by (cbn; discriminate).
    assert (Hu2 : string_of_list_ascii [c] <> "Gi") by (cbn; discriminate).
    assert (Hm1 : Z.of_nat (String.length (string_of_list_ascii (c1 :: m)))
                  <= max_str_digits).
    { rewrite <- length_list_ascii_of_string, list_ascii_of_string_of_list_ascii.
      rewrite Hsnoc, length_app in Hlen. cbn [length] in Hlen |- *. lia. }
    rewrite (ram_mb_other _ _ _ Hg Hm1 Hu1 Hu2). f_equal.
    unfold decimal_value. rewrite list_ascii_of_string_of_list_ascii. reflexivity.
Qed.

Lemma shr_1_nonneg (mrs : shr_record) : 0 <= shr_m mrs -> 0 <= shr_m (shr_1 mrs).
Proof.
  destruct mrs as [m r s]. cbn [shr_m]. intros H.
  destruct m as [|[p|p|]|p]; cbn; lia.
Qed.

Lemma iter_pos_shr_1_nonneg (p : positive) (mrs : shr_record) :
  0 <= shr_m mrs -> 0 <= shr_m (SpecFloat.iter_pos shr_1 p mrs).
Proof.
  revert mrs. induction p as [p IH|p IH|]; intros mrs H; cbn [SpecFloat.iter_pos].
  - apply IH, IH, shr_1_nonneg, H.
  - apply IH, IH, H.
  - apply shr_1_nonneg, H.
Qed.

Lemma shr_fexp_nonneg (m e : Z) (l : location) :
  0 <= m -> 0 <= shr_m (fst (shr_fexp 53 1024 m e l)).
Proof.
  intros H. unfold shr_fexp, shr.
  assert (H0 : 0 <= shr_m (shr_record_of_loc m l))
    by (destruct l as [|[]]; exact H).
  destruct (fexp 53 1024 (Zdigits2 m + e) - e); cbn [fst];
    [exact H0 | apply iter_pos_shr_1_nonneg, H0 | exact H0].
Qed.

Lemma round_nearest_even_nonneg (m : Z) (l : location) :
  0 <= m -> 0 <= round_nearest_even m l.
Proof.
  intros H. destruct l as [|[]]; cbn; [assumption | | assumption | lia].
  destruct (Z.even m); lia.
Qed.

(** Rounding a positive number never gives a negative one, nor a
    not-a-number. *)
Lemma binary_round_aux_positive (m : positive) (e : Z) :
  match binary_round_aux 53 1024 false (Z.pos m) e loc_Exact with
  | S754_zero false | S754_finite false _ _ | S754_infinity false => True
  | _ => False
  end.
Proof.
  unfold binary_round_aux.
  pose proof (shr_fexp_nonneg (Z.pos m) e loc_Exact ltac:(lia)) as H1.
  destruct (shr_fexp 53 1024 (Z.pos m) e loc_Exact) as [mrs' e'].
  cbn [fst] in H1.
  pose proof (shr_fexp_nonneg
                (round_nearest_even (shr_m mrs') (loc_of_shr_record mrs')) e' loc_Exact
                (round_nearest_even_nonneg _ _ H1)) as H2.
  destruct (shr_fexp 53 1024 _ e' loc_Exact) as [mrs'' e''].
  cbn [fst] in H2.
  destruct (shr_m mrs'') as [|p|p]; [exact I | | lia].
  destruct (e'' <=? 1024 - 53); exact I.
Qed.

(** True division of a natural number by 1024 gives a float that is zero or
    positive, or overflows. *)
Lemma truediv_1024_nonneg (n : Z) :
  0 <= n ->
  truediv_1024 n = Raise OverflowError
  \/ exists q z, truediv_1024 n = Ok q /\ int_of_float q = Ok z /\ 0 <= z.
Proof.
  intros Hn. unfold truediv_1024. destruct n as [|p|p]; [| |lia].
  - right. exists (S754_zero false), 0. repeat split; reflexivity || lia.
  - unfold binary_normalize, binary_round.
    destruct (shl_align p (-10) _) as [mz ez].
    pose proof (binary_round_aux_positive mz ez) as H.
    destruct (binary_round_aux 53 1024 false (Z.pos mz) ez loc_Exact)
      as [[]|[]| |[] m e]; try contradiction.
    + right. exists (S754_zero false), 0. repeat split; reflexivity || lia.
    + left. reflexivity.
    + right. eexists _, _. split; [reflexivity|]. split; [reflexivity|].
      destruct (0 <=? e) eqn:He.
      * apply Z.leb_le in He. apply Z.mul_nonneg_nonneg; [lia|].
        apply Z.pow_nonneg. lia.
      * apply Z.div_pos; [lia|]. apply Z.pow_pos_nonneg; lia.
Qed.

Lemma ram_mb_outcomes (s : string) :
  (exists n, ram_mb (Some s) = Ok n /\ 0 <= n)
  \/ (ram_mb (Some s) = Raise OverflowError /\ exists m, groups s m "Ki")
  \/ (ram_mb (Some s) = Raise ValueError
      /\ exists m u, groups s m u /\ max_str_digits < Z.of_nat (String.length m)).
Proof.
  destruct (reg_match s) as [[m u]|] eqn:Hm.
  - apply reg_match_groups in Hm as Hg.
    destruct (Z_le_gt_dec (Z.of_nat (String.length m)) max_str_digits) as [Hlen | Hlen].
    2:{ right. right. split; [apply (ram_mb_too_long s m u Hg); lia|].
        exists m, u. split; [exact Hg | lia]. }
    destruct (groups_digits _ _ _ Hg Hlen) as [Hint H0].
    destruct (String.eqb_spec u "Ki") as [-> | HKi].
    + unfold ram_mb. rewrite Hm. cbn -[truediv_1024 int_of_float int_of_str].
      rewrite Hint. cbn -[truediv_1024 int_of_float].
      destruct (truediv_1024_nonneg _ H0) as [-> | (q & z & -> & Hz & Hz0)].
      * right. left. split; [reflexivity|]. exists m. exact Hg.
      * left. exists z. cbn -[int_of_float]. split; assumption.
    + left. destruct (String.eqb_spec u "Gi") as [-> | HGi].
      * exists (decimal_value m * 1024). split; [apply ram_mb_Gi; assumption | lia].
      * exists (decimal_value m). split; [eapply ram_mb_other; eassumption | exact H0].
  - left. exists 0. split; [apply ram_mb_no_match, Hm | lia].
Qed.


(** ** The architecture of a node, continued *)

Lemma normalize_arch_not_amd64 (arch : string) :
  normalize_arch arch ∉ amd64_spellings.
Proof.
  unfold normalize_arch. destruct (String.eqb (lower arch) "amd64") eqn:E.
  - unfold amd64_spellings. rewrite !elem_of_cons, elem_of_nil.
    intros H. repeat (destruct H as [H | H]; [discriminate H|]). contradiction.
  - intros Hin. apply lower_amd64 in Hin. apply String.eqb_neq in E. contradiction.
Qed.

(** Normalising twice is normalising once, and the result never is a
    spelling of ["amd64"]. *)
Theorem normalize_arch_idempotent (arch : string) :
  normalize_arch (normalize_arch arch) = normalize_arch arch
  /\ normalize_arch arch ∉ amd64_spellings.
Proof.
  pose proof (normalize_arch_not_amd64 arch) as Hnot.
  split; [|exact Hnot].
  unfold normalize_arch at 1.
  destruct (String.eqb (lower (normalize_arch arch)) "amd64") eqn:E; [|reflexivity].
  apply String.eqb_eq, lower_amd64 in E. contradiction.
Qed.

(** ** The loop over the nodes, continued *)

(** The only exceptions of the conversion of a node: [TypeError] when the
    capacity has no ["memory"] entry, [OverflowError] from the division,
    [ValueError] from [int]. *)
Lemma host_of_raises (n : node) (e : exn) :
  host_of n = Raise e ->
  (e = TypeError /\ capacity n !! "memory" = None)
  \/ e = OverflowError \/ e = ValueError.
Proof.
  unfold host_of. destruct (capacity n !! "memory") as [s|] eqn:Hmem.
  - destruct (ram_mb_outcomes s) as [(z & -> & _) | [[-> _] | [-> _]]]; cbn.
    + discriminate.
    + intros [= <-]. right. left. reflexivity.
    + intros [= <-]. right. right. reflexivity.
  - cbn. intros [= <-]. left. split; reflexivity.
Qed.

Lemma host_of_ram_nonneg (n : node) (h : host_record) :
  host_of n = Ok h -> 0 <= ramMb h.
Proof.
  intros H. apply host_of_fields in H as (_ & _ & _ & _ & _ & _ & _ & Hram).
  destruct (capacity n !! "memory") as [s|]; [|discriminate Hram].
  destruct (ram_mb_outcomes s) as [(z & Hz & Hz0) | [[Hov _] | [Hov _]]]; congruence.
Qed.

Lemma gather_raises (items : list node) (output : gmap string host_record) (e : exn) :
  gather items output = Raise e ->
  e = TypeError \/ e = OverflowError \/ e = ValueError.
Proof.
  revert output. induction items as [|n items IH]; intros output; cbn [gather].
  - discriminate.
  - destruct (host_of n) as [h|e'] eqn:Hh; cbn [rbind].
    + apply IH.
    + intros [= <-]. apply host_of_raises in Hh as [[-> _] | [-> | ->]]; auto.
Qed.

(** The loop stops at the first item whose conversion raises. *)
Lemma gather_first_error (pre post : list node) (n : node)
    (output : gmap string host_record) (e : exn) :
  Forall (fun n' => exists h, host_of n' = Ok h) pre ->
  host_of n = Raise e ->
  gather (pre ++ n :: post) output = Raise e.
Proof.
  intros Hpre Hn. revert output.
  induction Hpre as [|n' pre [h Hh] _ IH]; intros output; cbn [app gather].
  - rewrite Hn. reflexivity.
  - rewrite Hh. cbn [rbind]. apply IH.
Qed.

(** Under a name, the dictionary holds the record of the last item with
    that name. *)
Lemma gather_lookup_last (items : list node) (output out : gmap string host_record)
    (k : string) :
  gather items output = Ok out ->
  out !! k = match last_named k items with
             | Some n => record_of n
             | None => output !! k
             end.
Proof.
  revert output. induction items as [|n items IH]; intros output; cbn [gather].
  - intros [= <-]. reflexivity.
  - destruct (host_of n) as [h|e] eqn:Hh; cbn [rbind]; [|discriminate].
    intros H. rewrite (IH _ H). unfold last_named. cbn [List.filter].
    destruct (String.eqb_spec (metadata_name n) k) as [Heq | Hne].
    + rewrite last_cons.
      destruct (last (List.filter _ items)); [reflexivity|].
      unfold record_of. rewrite Hh, <- Heq. apply lookup_insert_eq.
    + destruct (last (List.filter _ items)); [reflexivity|].
      apply lookup_insert_ne, Hne.
Qed.

Lemma last_named_name (k : string) (items : list node) (n : node) :
  last_named k items = Some n -> metadata_name n = k /\ n ∈ items.
Proof.
  unfold last_named. intros H. apply last_Some in H as [l' Hl].
  assert (Hin : In n (List.filter (fun n => String.eqb (metadata_name n) k) items))
    by (rewrite Hl; apply in_or_app; right; left; reflexivity).
  apply filter_In in Hin as [Hin Hk]. split.
  - apply String.eqb_eq, Hk.
  - apply list_elem_of_In, Hin.
Qed.

Section RunOutcomes.

Variable b64decode : string -> result string.
Variable tempdir : string.
Variable random_name : gmap string file -> result string.
Variable remove_errno : string -> option Z.
Variable load_kube_config :
  string -> string -> Configuration.t -> gmap string file ->
  result unit * Configuration.t * gmap string file.
Variable list_node : Configuration.t -> result (list node).

Local Notation "'setup'" :=
  (_setup_connection b64decode tempdir random_name remove_errno load_kube_config).
Local Notation "'run_worker'" :=
  (run b64decode tempdir random_name remove_errno load_kube_config list_node).

(** The ways [run] can return: what the setup, the query and the loop did. *)
Lemma run_Ok (s s' : state) (r : option (gmap string host_record)) :
  run_worker s = (Ok r, s') ->
  exists s1 sq,
    setup s = (Ok tt, s1)
    /\ try_except (gather_nodes list_node) caught on_backend_error s1 = (Ok r, sq)
    /\ _cleanup sq = (Ok tt, s').
Proof.
  rewrite run_unfold.
  destruct (setup s) as [[[]|e] s1] eqn:Hsetup; [|discriminate].
  intros H. apply try_finally_Ok in H as (sq & Hbody & Hclean).
  exists s1, sq. split; [reflexivity|]. split; assumption.
Qed.

(** When names repeat in the answer of the cluster, the last item of a name
    wins: the dictionary [run] returns holds, under each name, the record
    of the last item with that name, and its keys are the names of the
    items. *)
Theorem run_last_item_wins (s s' : state) (out : gmap string host_record) :
  run_worker s = (Ok (Some out), s') ->
  exists s1 items,
    setup s = (Ok tt, s1)
    /\ list_node (configuration s1) = Ok items
    /\ (forall k, out !! k = last_named k items ≫= record_of)
    /\ (forall k, is_Some (out !! k) <-> k ∈ metadata_name <$> items).
Proof.
  intros H. apply run_Ok in H as (s1 & sq & Hsetup & Hbody & _).
  apply body_Some in Hbody as (_ & items & Hitems & Hgather).
  exists s1, items. split; [exact Hsetup|]. split; [exact Hitems|]. split.
  - intros k. rewrite (gather_lookup_last _ _ _ k Hgather), lookup_empty.
    destruct (last_named k items); reflexivity.
  - intros k. rewrite <- elem_of_dom, (gather_dom _ _ _ Hgather), dom_empty_L.
    rewrite elem_of_union, elem_of_list_to_set, elem_of_empty. tauto.
Qed.

(** Every entry of the dictionary [run] returns, whether the names of the
    items are distinct or not: it is keyed by the name it holds, it is the
    record of an item of that name, its constant fields have their
    constants, its three CPU fields are equal, its memory is not negative
    and its architecture is no spelling of ["amd64"]. *)
Theorem run_entries_well_formed (s s' : state) (out : gmap string host_record)
    (k : string) (h : host_record) :
  run_worker s = (Ok (Some out), s') ->
  out !! k = Some h ->
  name h = k
  /\ type h = "kubernetes"
  /\ cpuDescription h = "(unknown)" /\ cpuVendor h = "(unknown)"
  /\ osVersion h = 1 /\ totalCpuThreads h = 1 /\ vms h = ∅
  /\ cpuMhz h = totalCpuCores h /\ totalCpuCores h = totalCpuSockets h
  /\ 0 <= ramMb h
  /\ cpuArch h ∉ amd64_spellings.
Proof.
  intros H Hk. apply run_Ok in H as (s1 & sq & _ & Hbody & _).
  apply body_Some in Hbody as (_ & items & _ & Hgather).
  rewrite (gather_lookup_last _ _ _ k Hgather), lookup_empty in Hk.
  destruct (last_named k items) as [n|] eqn:Hlast; [|discriminate].
  apply last_named_name in Hlast as [Hname _].
  unfold record_of in Hk. destruct (host_of n) as [h'|] eqn:Hh; [|discriminate].
  injection Hk as ->.
  pose proof (host_of_ram_nonneg _ _ Hh) as Hram.
  apply host_of_fields in Hh as Hf.
  destruct Hf as (H1 & H2 & H3 & H4 & H5 & H6 & H7 & _).
  assert (Hconst : type h = "kubernetes" /\ cpuDescription h = "(unknown)"
                   /\ cpuVendor h = "(unknown)" /\ osVersion h = 1).
  { unfold host_of in Hh. destruct (ram_mb (capacity n !! "memory")); [|discriminate].
    cbn in Hh. injection Hh as <-. repeat split. }
  destruct Hconst as (? & ? & ? & ?).
  repeat split; try congruence.
  rewrite H7. apply normalize_arch_not_amd64.
Qed.

(** [run] returns [None] only after the query has raised [ApiException] or
    [HTTPError]: the handler has then written one entry to the log, and
    teardown has completed.  An empty answer or a conversion problem never
    gives [None]. *)
Theorem run_None_only_after_backend_error (s s' : state) :
  run_worker s = (Ok None, s') ->
  exists s1 e,
    setup s = (Ok tt, s1)
    /\ list_node (configuration s1) = Raise e
    /\ caught e = true
    /\ log s' = backend_error_entry e :: log s1.
Proof.
  intros H. apply run_Ok in H as (s1 & sq & Hsetup & Hbody & Hclean).
  exists s1. unfold try_except in Hbody. rewrite gather_nodes_cases in Hbody.
  destruct (list_node (configuration s1)) as [items|e] eqn:Hitems.
  - destruct (gather items ∅) as [output|e] eqn:Hg; [discriminate|].
    apply gather_raises in Hg as [-> | [-> | ->]]; discriminate.
  - exists e. destruct (caught e) eqn:Hc; [|discriminate].
    rewrite on_backend_error_cases in Hbody. injection Hbody as <-.
    split; [exact Hsetup|]. split; [reflexivity|]. split; [reflexivity|].
    rewrite cleanup_unfold in Hclean.
    apply for_each_safe_rm_frame in Hclean as (_ & _ & Hlog & _). exact Hlog.
Qed.

(** One item that cannot be converted aborts the whole run: when the first
    such item has no ["memory"] capacity, [run] raises [TypeError] once
    teardown has completed; nothing is returned for the other items and
    nothing is logged. *)
Theorem run_item_without_memory (s s1 s2 : state) (pre post : list node) (n : node) :
  setup s = (Ok tt, s1) ->
  list_node (configuration s1) = Ok (pre ++ n :: post) ->
  Forall (fun n' => exists h, host_of n' = Ok h) pre ->
  capacity n !! "memory" = None ->
  _cleanup s1 = (Ok tt, s2) ->
  run_worker s = (Raise TypeError, s2) /\ log s2 = log s1.
Proof.
  intros Hsetup Hitems Hpre Hmem Hclean.
  assert (Hn : host_of n = Raise TypeError) by (unfold host_of; rewrite Hmem; reflexivity).
  rewrite run_unfold, Hsetup. unfold try_finally, try_except.
  rewrite gather_nodes_cases, Hitems, (gather_first_error _ _ _ _ _ Hpre Hn).
  cbn [caught]. rewrite Hclean. split; [reflexivity|].
  rewrite cleanup_unfold in Hclean.
  apply for_each_safe_rm_frame in Hclean as (_ & _ & Hlog & _). exact Hlog.
Qed.

End RunOutcomes.

(** ** Teardown, continued *)

(** [_safe_rm] leaves every other path alone. *)
Lemma safe_rm_other (path : option string) (s s' : state) (r : result unit) (q : string) :
  _safe_rm path s = (r, s') -> path <> Some q -> fs s' !! q = fs s !! q.
Proof.
  rewrite safe_rm_cases. intros H Hne.
  destruct (path_exists (fs s) (path_of path)) eqn:He; [|injection H as _ <-; reflexivity].
  destruct (fs s !! path_of path) as [f|]; [|injection H as _ <-; reflexivity].
  destruct (unlink_errno f) as [e|].
  - destruct (e =? ENOENT); injection H as _ <-; reflexivity.
  - injection H as _ <-. cbn [fs with_fs]. apply lookup_delete_ne.
    destruct path as [p|]; cbn [path_of] in *; [congruence | discriminate He].
Qed.

Lemma for_each_safe_rm_other (l : list (option string)) (s s' : state) (r : result unit)
    (q : string) :
  for_each l _safe_rm s = (r, s') -> Some q ∉ l -> fs s' !! q = fs s !! q.
Proof.
  revert s. induction l as [|x l IH]; intros s; cbn [for_each].
  - intros [= _ <-] _. reflexivity.
  - intros H Hq. apply not_elem_of_cons in Hq as [Hne Hq]. unfold bind in H.
    destruct (_safe_rm x s) as [[[]|e] s1] eqn:E1.
    + rewrite (IH _ H Hq). eapply safe_rm_other; [exact E1 | congruence].
    + injection H as _ <-. eapply safe_rm_other; [exact E1 | congruence].
Qed.

(** Teardown touches nothing but the files at the three paths of the
    shared configuration, whether it completes or raises: the instance, the
    configuration (the three paths stay registered), the log and every
    other file are as before, and no file appears. *)
Theorem cleanup_frame (s s' : state) (r : result unit) :
  _cleanup s = (r, s') ->
  self s' = self s /\ configuration s' = configuration s /\ log s' = log s
  /\ fs s' ⊆ fs s
  /\ forall q, Some q ∉ cleanup_paths (configuration s) -> fs s' !! q = fs s !! q.
Proof.
  rewrite cleanup_unfold. intros H.
  pose proof (for_each_safe_rm_frame _ _ _ _ H) as (H1 & H2 & H3 & _ & H5).
  split; [exact H1|]. split; [exact H2|]. split; [exact H3|]. split; [exact H5|].
  intros q Hq. eapply for_each_safe_rm_other; eassumption.
Qed.

(** Once the loop of [_cleanup] has completed, [_safe_rm] on any of its
    paths does nothing. *)
Lemma for_each_safe_rm_settled (l : list (option string)) (s s' : state)
    (x : option string) :
  for_each l _safe_rm s = (Ok tt, s') -> x ∈ l -> _safe_rm x s' = (Ok tt, s').
Proof.
  revert s. induction l as [|y l IH]; intros s H Hin.
  - apply elem_of_nil in Hin. contradiction.
  - cbn [for_each] in H. unfold bind in H.
    destruct (_safe_rm y s) as [[[]|e] s1] eqn:E1; [|discriminate].
    apply elem_of_cons in Hin as [-> | Hin]; [|eapply IH; eassumption].
    pose proof (for_each_safe_rm_frame _ _ _ _ H) as (_ & _ & _ & _ & Hsub).
    pose proof (safe_rm_frame _ _ _ _ E1) as (_ & _ & _ & _ & Hsub1).
    rewrite safe_rm_cases.
    destruct (path_exists (fs s') (path_of y)) eqn:He'; [|reflexivity].
    unfold path_exists in He'. apply andb_true_iff in He' as [Hne He'].
    apply bool_decide_eq_true in He' as [f' Hf']. rewrite Hf'.
    pose proof (lookup_weaken _ _ _ _ Hf' Hsub) as Hf1.
    pose proof (lookup_weaken _ _ _ _ Hf1 Hsub1) as Hf.
    rewrite safe_rm_cases in E1. unfold path_exists in E1.
    rewrite Hne, Hf in E1. cbn [andb] in E1.
    rewrite bool_decide_eq_true_2 in E1 by (eexists; reflexivity).
    destruct (unlink_errno f') as [errno|].
    + destruct (errno =? ENOENT); [reflexivity | discriminate E1].
    + injection E1 as <-. cbn [fs with_fs] in Hf1. rewrite lookup_delete_eq in Hf1.
      discriminate Hf1.
Qed.

(** Teardown that has completed can be repeated: a second call completes
    too and changes nothing. *)
Theorem cleanup_idempotent (s s' : state) :
  _cleanup s = (Ok tt, s') -> _cleanup s' = (Ok tt, s').
Proof.
  intros H. rewrite cleanup_unfold in H.
  pose proof (for_each_safe_rm_frame _ _ _ _ H) as (_ & Hconf & _).
  rewrite cleanup_unfold, Hconf.
  assert (Hall : forall x, x ∈ cleanup_paths (configuration s) ->
                   _safe_rm x s' = (Ok tt, s'))
    by (intros x; apply (for_each_safe_rm_settled _ _ _ _ H)).
  clear H. induction (cleanup_paths (configuration s)) as [|x l IH]; [reflexivity|].
  cbn [for_each]. unfold bind. rewrite (Hall x) by (left; reflexivity).
  apply IH. intros y Hy. apply Hall. right. exact Hy.
Qed.

(** Teardown stops at the first file it cannot remove.  When the file at
    the CA path exists and [os.remove] refuses it (for a reason other than
    [ENOENT]), [_cleanup] raises [NameError] and has removed nothing: the
    files at the certificate and key paths are not even tried. *)
Theorem cleanup_stops_at_first_refusal (s : state) (p : string) (f : file) (errno : Z) :
  Configuration.ssl_ca_cert (configuration s) = Some p ->
  p <> "" -> fs s !! p = Some f ->
  unlink_errno f = Some errno -> errno <> ENOENT ->
  _cleanup s = (Raise (NameError "log"), s).
Proof.
  intros Hca Hp Hf Hu He. rewrite cleanup_unfold. unfold cleanup_paths. rewrite Hca.
  cbn [for_each]. unfold bind.
  rewrite (safe_rm_refused p f errno s Hp Hf Hu He). reflexivity.
Qed.

Lemma for_each_safe_rm_raises (l : list (option string)) (s s' : state) (e : exn) :
  for_each l _safe_rm s = (Raise e, s') ->
  e = NameError "log"
  /\ exists x f errno,
       x ∈ l /\ path_of x <> "" /\ fs s' !! path_of x = Some f
       /\ unlink_errno f = Some errno /\ errno <> ENOENT.
Proof.
  revert s. induction l as [|y l IH]; intros s; cbn [for_each].
  - intros [=].
  - unfold bind. destruct (_safe_rm y s) as [[[]|e1] s1] eqn:E1.
    + intros H. destruct (IH _ H) as (He & x & f & errno & Hin & Hrest).
      split; [exact He|]. exists x, f, errno. split; [right; exact Hin | exact Hrest].
    + intros [= <- <-]. rewrite safe_rm_cases in E1.
      destruct (path_exists (fs s) (path_of y)) eqn:Hex; [|discriminate].
      unfold path_exists in Hex. apply andb_true_iff in Hex as [Hne _].
      apply negb_true_iff, String.eqb_neq in Hne.
      destruct (fs s !! path_of y) as [f|] eqn:Hf; [|discriminate].
      destruct (unlink_errno f) as [errno|] eqn:Hu; [|discriminate].
      destruct (Z.eqb_spec errno ENOENT) as [|Hneq]; [discriminate|].
      injection E1 as <- <-. split; [reflexivity|].
      exists y, f, errno. split; [left; reflexivity|]. repeat split; assumption.
Qed.

(** The only exception teardown raises is the [NameError] of the handler
    of [_safe_rm], and it raises it only when the file at one of the three
    paths exists and [os.remove] refuses it for a reason other than
    [ENOENT]; that file is then still there. *)
Theorem cleanup_raises_only_NameError (s s' : state) (e : exn) :
  _cleanup s = (Raise e, s') ->
  e = NameError "log"
  /\ exists p f errno,
       Some p ∈ cleanup_paths (configuration s) /\ p <> ""
       /\ fs s' !! p = Some f /\ unlink_errno f = Some errno /\ errno <> ENOENT.
Proof.
  rewrite cleanup_unfold. intros H.
  apply for_each_safe_rm_raises in H as (He & x & f & errno & Hin & Hne & Hrest).
  split; [exact He|]. destruct x as [p|]; [|contradiction Hne; reflexivity].
  exists p, f, errno. split; [exact Hin|]. split; [exact Hne | exact Hrest].
Qed.

(** ** Connection setup, continued *)

Section SetupProperties.

Variable b64decode : string -> result string.
Variable tempdir : string.
Variable random_name : gmap string file -> result string.
Variable remove_errno : string -> option Z.
Variable load_kube_config :
  string -> string -> Configuration.t -> gmap string file ->
  result unit * Configuration.t * gmap string file.

Local Notation "'setup'" :=
  (_setup_connection b64decode tempdir random_name remove_errno load_kube_config).

(** A [with NamedTemporaryFile ...] block that completes: the field was
    empty and nothing happened, or the field has been decoded into a new
    file whose path is registered. *)
Lemma materialize_Ok_decoded (field : option string)
    (register : option string -> Configuration.t -> Configuration.t) (s s' : state) :
  materialize b64decode tempdir random_name remove_errno field register s = (Ok tt, s') ->
  (truthy field = false /\ s' = s)
  \/ (truthy field = true
      /\ exists path bytes,
           b64decode (default "" field) = Ok bytes
           /\ path <> "" /\ fs s !! path = None
           /\ s' = with_configuration (register (Some path) (configuration s))
                     (with_tmpfiles (path :: tmpfiles s)
                        (with_fs (<[path := File bytes (remove_errno path)]> (fs s)) s))).
Proof.
  unfold materialize. destruct (truthy field); [|intros [= <-]; left; split; reflexivity].
  intros H. right. split; [reflexivity|].
  apply bind_Ok in H as (path & s1 & Hfile & H).
  apply NamedTemporaryFile_Ok in Hfile as (Hpath & Hfree & ->).
  apply bind_Ok in H as (bytes & s2 & Hdecode & H).
  unfold lift in Hdecode. injection Hdecode as Hdecode <-.
  unfold bind, write, modify in H. cbn [fs with_tmpfiles with_fs] in H.
  rewrite lookup_insert_eq in H. cbn in H. injection H as <-.
  exists path, bytes. split; [exact Hdecode|]. split; [exact Hpath|]. split; [exact Hfree|].
  rewrite insert_insert_eq. reflexivity.
Qed.

(** Setup on the explicit-endpoint path, when it completes: the endpoint
    and the basic-auth credentials of the worker are in the shared
    configuration; each of the three certificate fields that is non-empty
    has been decoded into a new file of its own, whose path is registered
    under the matching attribute, and each empty one leaves its attribute
    without a path; the files that existed are untouched. *)
Theorem setup_url_materializes (s s1 : state) (kc cx : option string) :
  kubeconfig (self s) = Attr kc -> context (self s) = Attr cx ->
  truthy kc && truthy cx = false ->
  setup s = (Ok tt, s1) ->
  Configuration.host (configuration s1) = url (self s)
  /\ Configuration.user (configuration s1) = user (self s)
  /\ Configuration.passwd (configuration s1) = password (self s)
  /\ holds_decoded b64decode remove_errno (fs s) (fs s1) (ca_cert (self s))
       (Configuration.ssl_ca_cert (configuration s1))
  /\ holds_decoded b64decode remove_errno (fs s) (fs s1) (client_cert (self s))
       (Configuration.cert_file (configuration s1))
  /\ holds_decoded b64decode remove_errno (fs s) (fs s1) (client_key (self s))
       (Configuration.key_file (configuration s1))
  /\ fs s ⊆ fs s1
  /\ (forall p, Configuration.ssl_ca_cert (configuration s1) = Some p ->
        Configuration.cert_file (configuration s1) <> Some p
        /\ Configuration.key_file (configuration s1) <> Some p)
  /\ (forall p, Configuration.cert_file (configuration s1) = Some p ->
        Configuration.key_file (configuration s1) <> Some p).
Proof.
  intros Hkc Hcx Hpath. unfold _setup_connection.
  intros H. apply bind_Ok in H as (s' & ? & [= <- <-] & H).
  rewrite Hkc in H. apply bind_Ok in H as (kc' & ? & [= <- <-] & H).
  assert (Hboth : forall cx' : option string,
            (if truthy kc then getattr (context (self s)) "context" else ret None) s
            = (Ok cx', s) -> truthy kc && truthy cx' = false).
  { intros cx'. destruct (truthy kc) eqn:Ekc; [|reflexivity].
    rewrite Hcx. intros [= <-]. exact Hpath. }
  apply bind_Ok in H as (cx' & s' & Hcx' & H).
  assert (s' = s) as ->.
  { destruct (truthy kc); [rewrite Hcx in Hcx'|]; injection Hcx' as _ <-; reflexivity. }
  rewrite (Hboth cx' Hcx') in H. clear Hboth Hcx'.
  apply bind_Ok in H as ([] & sa & [= <-] & H).
  apply bind_Ok in H as ([] & sb & [= <-] & H).
  apply bind_Ok in H as ([] & sc & [= <-] & H).
  apply bind_Ok in H as ([] & sd & [= <-] & H).
  apply bind_Ok in H as ([] & se & Hca & H).
  apply bind_Ok in H as ([] & sf & Hcert & Hkey).
  cbn [self with_configuration] in Hca, Hcert, Hkey.
  apply materialize_Ok_decoded in Hca
    as [[Tca ->] | (Tca & p1 & b1 & D1 & N1 & F1 & ->)];
  apply materialize_Ok_decoded in Hcert
    as [[Tcert ->] | (Tcert & p2 & b2 & D2 & N2 & F2 & ->)];
  apply materialize_Ok_decoded in Hkey
    as [[Tkey ->] | (Tkey & p3 & b3 & D3 & N3 & F3 & ->)];
  cbn in *;
  repeat match goal with
         | H : <[_ := _]> _ !! _ = None |- _ => apply lookup_insert_None in H as [? ?]
         end;
  (split; [reflexivity|]); (split; [reflexivity|]); (split; [reflexivity|]);
  (split; [|split; [|split; [|split; [|split]]]]);
  try assumption;
  try (split; [assumption|]; split; [assumption|]; split; [assumption|];
       eexists; split; [eassumption|];
       rewrite ?lookup_insert_eq, ?lookup_insert_ne by congruence;
       rewrite ?lookup_insert_eq; reflexivity);
  try (repeat (apply insert_subseteq_r; [assumption|]); reflexivity);
  try (intros p Hp; try discriminate Hp; injection Hp as <-; try split; congruence).
Qed.

(** A worker that has been constructed but never configured cannot run:
    the constructor sets neither [kubeconfig] nor [context], so setup, and
    with it [run], raises [AttributeError] at its first test, before
    anything is changed; the query is not made and teardown is not
    called. *)
Theorem run_before_set_node (list_node : Configuration.t -> result (list node))
    (s : state) :
  self s = init_worker ->
  setup s = (Raise (AttributeError "kubeconfig"), s)
  /\ run b64decode tempdir random_name remove_errno load_kube_config list_node s
     = (Raise (AttributeError "kubeconfig"), s).
Proof.
  intros Hself.
  assert (Hsetup : setup s = (Raise (AttributeError "kubeconfig"), s)).
  { unfold _setup_connection, bind, get. rewrite Hself. reflexivity. }
  split; [exact Hsetup|].
  rewrite run_unfold, Hsetup. reflexivity.
Qed.

End SetupProperties.

(** ** What [run] leaves alone *)

Lemma bind_cases {A B} (m : M A) (k : A -> M B) (s s' : state) (r : result B) :
  bind m k s = (r, s') ->
  (exists a s1, m s = (Ok a, s1) /\ k a s1 = (r, s'))
  \/ (exists e, m s = (Raise e, s') /\ r = Raise e).
Proof.
  unfold bind. destruct (m s) as [[a|e] s1].
  - intros H. left. exists a, s1. split; [reflexivity | exact H].
  - intros [= <- <-]. right. exists e. split; reflexivity.
Qed.

Section RunFrame.

Variable b64decode : string -> result string.
Variable tempdir : string.
Variable random_name : gmap string file -> result string.
Variable remove_errno : string -> option Z.
Variable load_kube_config :
  string -> string -> Configuration.t -> gmap string file ->
  result unit * Configuration.t * gmap string file.
Variable list_node : Configuration.t -> result (list node).

Local Notation "'setup'" :=
  (_setup_connection b64decode tempdir random_name remove_errno load_kube_config).
Local Notation "'run_worker'" :=
  (run b64decode tempdir random_name remove_errno load_kube_config list_node).

(** One [with NamedTemporaryFile ...] block, whatever its outcome: no file
    is lost or changed, and the configuration is as before or has one new
    path registered, that of a file that did not exist. *)
Lemma materialize_frame (field : option string)
    (register : option string -> Configuration.t -> Configuration.t)
    (s s' : state) (r : result unit) :
  materialize b64decode tempdir random_name remove_errno field register s = (r, s') ->
  self s' = self s /\ log s' = log s /\ fs s ⊆ fs s'
  /\ (configuration s' = configuration s
      \/ exists p, fs s !! p = None
                   /\ configuration s' = register (Some p) (configuration s)).
Proof.
  unfold materialize. destruct (truthy field).
  2:{ intros [= <- <-]. repeat split; try reflexivity. left. reflexivity. }
  unfold bind, NamedTemporaryFile.
  destruct (random_name (fs s)) as [name|e].
  2:{ intros [= <- <-]. repeat split; try reflexivity. left. reflexivity. }
  destruct (fs s !! (tempdir +:+ "/kube-" +:+ name)) as [f|] eqn:Hfree.
  { intros [= <- <-]. repeat split; try reflexivity. left. reflexivity. }
  unfold lift. destruct (b64decode (default "" field)) as [bytes|e].
  - unfold write, modify. cbn [fs with_fs with_tmpfiles]. rewrite lookup_insert_eq.
    intros [= <- <-]. cbn. split; [reflexivity|]. split; [reflexivity|].
    split; [|right; eexists; split; [exact Hfree | reflexivity]].
    rewrite insert_insert_eq. apply insert_subseteq, Hfree.
  - intros [= <- <-]. cbn. split; [reflexivity|]. split; [reflexivity|].
    split; [apply insert_subseteq, Hfree | left; reflexivity].
Qed.

Lemma materialize_since (field : option string)
    (register : option string -> Configuration.t -> Configuration.t)
    (s0 s s' : state) (r : result unit) :
  (forall p c q, Some q ∈ cleanup_paths (register (Some p) c) ->
                 q = p \/ Some q ∈ cleanup_paths c) ->
  since s0 s ->
  materialize b64decode tempdir random_name remove_errno field register s = (r, s') ->
  since s0 s'.
Proof.
  intros Hreg (Hself & Hlog & Hfs & Hpaths) H.
  apply materialize_frame in H as (Hself' & Hlog' & Hfs' & Hconf).
  split; [congruence|]. split; [congruence|]. split; [etrans; eassumption|].
  intros q Hq. destruct Hconf as [Hconf | (p & Hfree & Hconf)]; rewrite Hconf in Hq.
  - apply Hpaths, Hq.
  - apply Hreg in Hq as [-> | Hq]; [|apply Hpaths, Hq].
    destruct (fs s0 !! p) as [f|] eqn:Hf; [|reflexivity].
    rewrite (lookup_weaken _ _ _ _ Hf Hfs) in Hfree. discriminate Hfree.
Qed.

Lemma setup_url_unfold (s : state) (kc : option string) :
  kubeconfig (self s) = Attr kc ->
  truthy kc = false
  \/ (exists cx, context (self s) = Attr cx /\ truthy cx = false) ->
  setup s
  = (materialize b64decode tempdir random_name remove_errno (ca_cert (self s))
       Configuration.set_ssl_ca_cert ;;
     materialize b64decode tempdir random_name remove_errno (client_cert (self s))
       Configuration.set_cert_file ;;
     materialize b64decode tempdir random_name remove_errno (client_key (self s))
       Configuration.set_key_file)%py
      (with_configuration
         (Configuration.set_passwd (password (self s))
            (Configuration.set_user (user (self s))
               (Configuration.set_host (url (self s)) Configuration.init)))
         s).
Proof.
  intros Hkc Hpath. unfold _setup_connection.
  unfold bind at 1, get. rewrite Hkc. unfold bind at 1, getattr at 1, ret at 1.
  destruct (truthy kc) eqn:Ekc.
  - destruct Hpath as [? | (cx & Hcx & Tcx)]; [discriminate|].
    rewrite Hcx. unfold bind at 1, getattr, ret at 1. rewrite Tcx. reflexivity.
  - unfold bind at 1, ret at 1. reflexivity.
Qed.

Lemma setup_url_since (s s' : state) (r : result unit) (kc : option string) :
  kubeconfig (self s) = Attr kc ->
  truthy kc = false
  \/ (exists cx, context (self s) = Attr cx /\ truthy cx = false) ->
  setup s = (r, s') -> since s s'.
Proof.
  intros Hkc Hpath. rewrite (setup_url_unfold s kc Hkc Hpath). intros H.
  assert (H0 : since s (with_configuration
         (Configuration.set_passwd (password (self s))
            (Configuration.set_user (user (self s))
               (Configuration.set_host (url (self s)) Configuration.init))) s)).
  { split; [reflexivity|]. split; [reflexivity|]. split; [reflexivity|].
    intros p Hp. change (Some p ∈ [None; None; None]) in Hp.
    rewrite !elem_of_cons, elem_of_nil in Hp.
    destruct Hp as [Hp | [Hp | [Hp | []]]]; discriminate Hp. }
  assert (R1 : forall p c q, Some q ∈ cleanup_paths (Configuration.set_ssl_ca_cert (Some p) c) ->
                 q = p \/ Some q ∈ cleanup_paths c).
  { intros p c q. unfold cleanup_paths. cbn. rewrite !elem_of_cons.
    intros [[= ->] | Hq]; [left; reflexivity | right; right; exact Hq]. }
  assert (R2 : forall p c q, Some q ∈ cleanup_paths (Configuration.set_cert_file (Some p) c) ->
                 q = p \/ Some q ∈ cleanup_paths c).
  { intros p c q. unfold cleanup_paths. cbn. rewrite !elem_of_cons.
    intros [Hq | [[= ->] | Hq]]; [right; left; exact Hq | left; reflexivity
                                 | right; right; right; exact Hq]. }
  assert (R3 : forall p c q, Some q ∈ cleanup_paths (Configuration.set_key_file (Some p) c) ->
                 q = p \/ Some q ∈ cleanup_paths c).
  { intros p c q. unfold cleanup_paths. cbn. rewrite !elem_of_cons, elem_of_nil.
    intros [Hq | [Hq | [[= ->] | []]]]; [right; left; exact Hq
                                        | right; right; left; exact Hq | left; reflexivity]. }
  apply bind_cases in H as [([] & sa & Ha & H) | (e & Ha & _)];
    [|exact (materialize_since _ _ _ _ _ _ R1 H0 Ha)].
  pose proof (materialize_since _ _ _ _ _ _ R1 H0 Ha) as H1.
  apply bind_cases in H as [([] & sb & Hb & H) | (e & Hb & _)];
    [|exact (materialize_since _ _ _ _ _ _ R2 H1 Hb)].
  pose proof (materialize_since _ _ _ _ _ _ R2 H1 Hb) as H2.
  exact (materialize_since _ _ _ _ _ _ R3 H2 H).
Qed.

(** Setup never touches the instance or the log. *)
Lemma setup_self_log (s s' : state) (r : result unit) :
  setup s = (r, s') -> self s' = self s /\ log s' = log s.
Proof.
  destruct (kubeconfig (self s)) as [|kc] eqn:Hkc.
  { unfold _setup_connection, bind, get. rewrite Hkc. intros [= <- <-].
    split; reflexivity. }
  destruct (truthy kc) eqn:Tkc.
  2:{ intros H. apply (setup_url_since s s' r kc Hkc) in H as (? & ? & _);
        [split; assumption | left; exact Tkc]. }
  destruct (context (self s)) as [|cx] eqn:Hcx.
  { unfold _setup_connection, bind, get. rewrite Hkc. unfold getattr at 1, ret at 1.
    rewrite Tkc, Hcx. intros [= <- <-]. split; reflexivity. }
  destruct (truthy cx) eqn:Tcx.
  2:{ intros H. apply (setup_url_since s s' r kc Hkc) in H as (? & ? & _);
        [split; assumption | right; exists cx; split; assumption]. }
  unfold _setup_connection, bind, get. rewrite Hkc. unfold getattr at 1, ret at 1.
  rewrite Tkc, Hcx. unfold getattr, ret. rewrite Tcx. cbn [andb].
  destruct (load_kube_config _ _ _ _) as [[r0 c] f]. intros [= <- <-].
  split; reflexivity.
Qed.

(** [run] never changes the parameters of the worker, whatever its
    outcome, and it writes to the log at most once: one entry, when the
    query has raised [ApiException] or [HTTPError]. *)
Theorem run_keeps_worker_logs_once (s s' : state)
    (r : result (option (gmap string host_record))) :
  run_worker s = (r, s') ->
  self s' = self s
  /\ (log s' = log s
      \/ exists e, caught e = true /\ log s' = backend_error_entry e :: log s).
Proof.
  rewrite run_unfold. destruct (setup s) as [[[]|e] s1] eqn:Hsetup.
  2:{ intros [= <- <-]. apply setup_self_log in Hsetup as [? ?].
      split; [assumption | left; assumption]. }
  apply setup_self_log in Hsetup as [Hself Hlog].
  unfold try_finally.
  destruct (try_except (gather_nodes list_node) caught on_backend_error s1)
    as [rb sq] eqn:Hbody.
  destruct (_cleanup sq) as [rc s2] eqn:Hclean.
  rewrite cleanup_unfold in Hclean.
  apply for_each_safe_rm_frame in Hclean as (Hself2 & _ & Hlog2 & _).
  assert (Hs' : s' = s2 -> self s' = self s
      /\ (log s' = log s
          \/ exists e, caught e = true /\ log s' = backend_error_entry e :: log s)).
  { intros ->. pose proof (body_frame _ _ _ _ Hbody) as (Hselfq & _).
    split; [congruence|]. rewrite Hlog2.
    unfold try_except in Hbody. rewrite gather_nodes_cases in Hbody.
    destruct (list_node (configuration s1)) as [items|e];
      [destruct (gather items ∅) as [output|e]|].
    - injection Hbody as _ <-. left. exact Hlog.
    - destruct (caught e) eqn:Hc; [rewrite on_backend_error_cases in Hbody|];
        injection Hbody as _ <-; [right; exists e; split; [exact Hc | simpl; rewrite Hlog; reflexivity]
                                 | left; exact Hlog].
    - destruct (caught e) eqn:Hc; [rewrite on_backend_error_cases in Hbody|];
        injection Hbody as _ <-; [right; exists e; split; [exact Hc | simpl; rewrite Hlog; reflexivity]
                                 | left; exact Hlog]. }
  destruct rc as [[]|e]; intros [= _ <-]; apply Hs'; reflexivity.
Qed.

(** On the explicit-endpoint path [run] never removes or changes a file
    that existed before the call, whatever its outcome: the files it
    writes and removes are its own. *)
Theorem run_url_path_keeps_existing_files (s s' : state)
    (r : result (option (gmap string host_record))) (kc cx : option string) :
  kubeconfig (self s) = Attr kc -> context (self s) = Attr cx ->
  truthy kc && truthy cx = false ->
  run_worker s = (r, s') ->
  forall q f, fs s !! q = Some f -> fs s' !! q = Some f.
Proof.
  intros Hkc Hcx Hpath.
  assert (Hurl : truthy kc = false
                 \/ (exists cx, context (self s) = Attr cx /\ truthy cx = false)).
  { apply andb_false_iff in Hpath as [? | ?]; [left; assumption|].
    right. exists cx. split; assumption. }
  rewrite run_unfold. destruct (setup s) as [[[]|e] s1] eqn:Hsetup;
    apply (setup_url_since s s1 _ kc Hkc Hurl) in Hsetup as (_ & _ & Hfs & Hpaths).
  2:{ intros [= <- <-] q f Hq. exact (lookup_weaken _ _ _ _ Hq Hfs). }
  unfold try_finally.
  destruct (try_except (gather_nodes list_node) caught on_backend_error s1)
    as [rb sq] eqn:Hbody.
  apply body_frame in Hbody as (_ & Hconf & Hfsq & _).
  destruct (_cleanup sq) as [rc s2] eqn:Hclean.
  assert (Hkeep : forall q f, fs s !! q = Some f -> fs s2 !! q = Some f).
  { intros q f Hq. rewrite cleanup_unfold in Hclean.
    rewrite (for_each_safe_rm_other _ _ _ _ q Hclean).
    - rewrite Hfsq. exact (lookup_weaken _ _ _ _ Hq Hfs).
    - rewrite Hconf. intros Hin. apply Hpaths in Hin. congruence. }
  destruct rc as [[]|e]; intros [= _ <-]; exact Hkeep.
Qed.

(** [_safe_rm] and [_cleanup] do not read the instance. *)
Lemma safe_rm_with_self (path : option string) (w : worker) (s : state) :
  _safe_rm path (with_self w s)
  = (fst (_safe_rm path s), with_self w (snd (_safe_rm path s))).
Proof.
  rewrite !safe_rm_cases. simpl fs.
  destruct (path_exists _ _); [destruct (fs s !! _) as [f|]; [destruct (unlink_errno f) as [e|];
    [destruct (e =? ENOENT)|]|]|]; reflexivity.
Qed.

Lemma cleanup_with_self (w : worker) (s s' : state) (r : result unit) :
  _cleanup s = (r, s') -> _cleanup (with_self w s) = (r, with_self w s').
Proof.
  rewrite !cleanup_unfold. simpl configuration.
  generalize (cleanup_paths (configuration s)). intros paths. revert s.
  induction paths as [|x paths IH]; intros s; simpl.
  - intros [= <- <-]. reflexivity.
  - unfold bind. rewrite safe_rm_with_self.
    destruct (_safe_rm x s) as [[[]|e] s1]; simpl.
    + apply IH.
    + intros [= <- <-]. reflexivity.
Qed.

(** Neither does the [try] with its handler. *)
Lemma body_with_self (w : worker) (s s' : state)
    (r : result (option (gmap string host_record))) :
  try_except (gather_nodes list_node) caught on_backend_error s = (r, s') ->
  try_except (gather_nodes list_node) caught on_backend_error (with_self w s)
  = (r, with_self w s').
Proof.
  unfold try_except. rewrite !gather_nodes_cases. simpl configuration.
  destruct (list_node (configuration s)) as [items|e];
    [destruct (gather items ∅) as [output|e]|].
  - intros [= <- <-]. reflexivity.
  - destruct (caught e); [rewrite !on_backend_error_cases|]; intros [= <- <-]; reflexivity.
  - destruct (caught e); [rewrite !on_backend_error_cases|]; intros [= <- <-]; reflexivity.
Qed.

(** A kubeconfig with a context takes precedence over everything else:
    when both are non-empty, the endpoint, the basic-auth credentials and
    the three certificate fields of the worker are never read, so a worker
    that differs in these fields alone runs the same way, with the same
    outcome and the same effects. *)
Theorem run_kubeconfig_takes_precedence (s : state) (w : worker) (kc cx : string) :
  kubeconfig (self s) = Attr (Some kc) -> context (self s) = Attr (Some cx) ->
  kc <> "" -> cx <> "" ->
  kubeconfig w = kubeconfig (self s) -> context w = context (self s) ->
  run_worker (with_self w s)
  = (fst (run_worker s), with_self w (snd (run_worker s))).
Proof.
  intros Hkc Hcx Hk Hc Hwk Hwc.
  rewrite !run_unfold.
  rewrite (setup_kubeconfig b64decode tempdir random_name remove_errno load_kube_config s kc cx)
    by assumption.
  rewrite (setup_kubeconfig b64decode tempdir random_name remove_errno load_kube_config
             (with_self w s) kc cx)
    by (simpl self; congruence || assumption).
  simpl configuration. simpl fs.
  destruct (load_kube_config kc cx (configuration s) (fs s)) as [[[[]|e] c1] f1];
    [|reflexivity].
  change (with_fs f1 (with_configuration c1 (with_self w s)))
    with (with_self w (with_fs f1 (with_configuration c1 s))).
  unfold try_finally.
  destruct (try_except (gather_nodes list_node) caught on_backend_error
              (with_fs f1 (with_configuration c1 s))) as [rb sq] eqn:Hbody.
  rewrite (body_with_self w _ _ _ Hbody).
  destruct (_cleanup sq) as [rc s2] eqn:Hclean.
  rewrite (cleanup_with_self w _ _ _ Hclean).
  destruct rc as [[]|e]; reflexivity.
Qed.

End RunFrame.

(** ** The further properties at the examples *)

Lemma set_node_overwrites_witness :
  set_node example_node_url (snd (set_node example_node_kubeconfig initial_state))
  = (Ok tt, configured_state)
  /\ set_node example_node_url initial_state = (Ok tt, configured_state).
Proof.
  assert (H1 : set_node example_node_kubeconfig initial_state
               = (Ok tt, snd (set_node example_node_kubeconfig initial_state)))
    by (vm_compute; reflexivity).
  assert (H2 : set_node example_node_url (snd (set_node example_node_kubeconfig initial_state))
               = (Ok tt, configured_state))
    by (vm_compute; reflexivity).
  split; [exact H2|].
  exact (set_node_overwrites example_node_kubeconfig example_node_url initial_state
           (snd (set_node example_node_kubeconfig initial_state)) configured_state H1 H2).
Defined.

Lemma set_node_reads_declared_parameters_witness :
  example_node_extra_key !! "namespace" = Some "default"
  /\ set_node example_node_extra_key initial_state
     = set_node example_node_url initial_state.
Proof.
  split; [vm_compute; reflexivity|].
  apply (proj1 (set_node_reads_declared_parameters init_worker initial_state)).
  intros k Hk. apply declared_key in Hk.
  unfold example_node_extra_key. apply lookup_insert_ne.
  intros <-. repeat (destruct Hk as [Hk | Hk]; [discriminate Hk|]). discriminate Hk.
Defined.

Lemma ram_mb_plain_number_witness :
  ram_mb (Some "8388608") = Ok 838860 /\ ram_mb (Some "7") = Ok 0.
Proof.
  assert (H1 : Z.of_nat (String.length "8388608") <= max_str_digits + 1)
    by (vm_compute; discriminate).
  assert (H2 : Z.of_nat (String.length "7") <= max_str_digits + 1)
    by (vm_compute; discriminate).
  split.
  - exact (ram_mb_plain_number "8388608" eq_refl H1).
  - exact (ram_mb_plain_number "7" eq_refl H2).
Defined.

Lemma run_last_item_wins_witness :
  repeated_output !! "worker-1" = Some example_record_1_again
  /\ forall k, is_Some (repeated_output !! k)
               <-> k ∈ ["worker-1"; "worker-2"; "worker-1"].
Proof.
  assert (E : example_run example_list_node_repeated configured_state
              = (Ok (Some repeated_output), snd repeated_run))
    by (vm_compute; reflexivity).
  destruct (run_last_item_wins b64decode_py "/tmp" example_random_name
              example_remove_errno example_load_kube_config example_list_node_repeated
              configured_state (snd repeated_run) repeated_output E)
    as (s1 & items & _ & Hitems & Hlookup & Hdom).
  injection Hitems as <-. split; [|exact Hdom].
  rewrite Hlookup. vm_compute. reflexivity.
Defined.

Lemma run_entries_well_formed_witness :
  repeated_output !! "worker-1" = Some example_record_1_again
  /\ 0 <= ramMb example_record_1_again
  /\ cpuArch example_record_1_again ∉ amd64_spellings.
Proof.
  assert (E : example_run example_list_node_repeated configured_state
              = (Ok (Some repeated_output), snd repeated_run))
    by (vm_compute; reflexivity).
  assert (Hk : repeated_output !! "worker-1" = Some example_record_1_again)
    by (vm_compute; reflexivity).
  split; [exact Hk|].
  destruct (run_entries_well_formed b64decode_py "/tmp" example_random_name
              example_remove_errno example_load_kube_config example_list_node_repeated
              configured_state (snd repeated_run) repeated_output
              "worker-1" example_record_1_again E Hk)
    as (_ & _ & _ & _ & _ & _ & _ & _ & _ & Hram & Harch).
  split; [exact Hram | exact Harch].
Defined.

Lemma run_None_only_after_backend_error_witness :
  exists s1 e,
    _setup_connection b64decode_py "/tmp" example_random_name example_remove_errno
      example_load_kube_config configured_state = (Ok tt, s1)
    /\ example_list_node_404 (configuration s1) = Raise e
    /\ caught e = true
    /\ log after_404 = backend_error_entry e :: log s1.
Proof.
  assert (E : example_run example_list_node_404 configured_state = (Ok None, after_404))
    by (vm_compute; reflexivity).
  exact (run_None_only_after_backend_error b64decode_py "/tmp" example_random_name
           example_remove_errno example_load_kube_config example_list_node_404
           configured_state after_404 E).
Defined.

Lemma run_item_without_memory_witness :
  example_run example_list_node_second_no_memory configured_state
  = (Raise TypeError, after_teardown)
  /\ log after_teardown = log configured_after_setup.
Proof.
  assert (H1 : _setup_connection b64decode_py "/tmp" example_random_name
                 example_remove_errno example_load_kube_config configured_state
               = (Ok tt, configured_after_setup))
    by (vm_compute; reflexivity).
  assert (H2 : example_list_node_second_no_memory (configuration configured_after_setup)
               = Ok ([example_node_1] ++ example_node_no_memory :: [example_node_2]))
    by reflexivity.
  assert (H3 : Forall (fun n' => exists h, host_of n' = Ok h) [example_node_1]).
  { apply Forall_cons. split; [|apply Forall_nil_2].
    destruct (host_of example_node_1) as [h|e] eqn:E.
    - exists h. reflexivity.
    - vm_compute in E. discriminate E. }
  assert (H4 : capacity example_node_no_memory !! "memory" = None)
    by (vm_compute; reflexivity).
  assert (H5 : _cleanup configured_after_setup = (Ok tt, after_teardown))
    by (vm_compute; reflexivity).
  exact (run_item_without_memory b64decode_py "/tmp" example_random_name
           example_remove_errno example_load_kube_config example_list_node_second_no_memory
           configured_state configured_after_setup after_teardown
           [example_node_1] [example_node_2] example_node_no_memory
           H1 H2 H3 H4 H5).
Defined.

Lemma cleanup_frame_witness :
  self after_teardown = self configured_after_setup
  /\ configuration after_teardown = configuration configured_after_setup
  /\ log after_teardown = log configured_after_setup
  /\ fs after_teardown ⊆ fs configured_after_setup
  /\ forall q, Some q ∉ cleanup_paths (configuration configured_after_setup) ->
               fs after_teardown !! q = fs configured_after_setup !! q.
Proof.
  assert (H : _cleanup configured_after_setup = (Ok tt, after_teardown))
    by (vm_compute; reflexivity).
  exact (cleanup_frame configured_after_setup after_teardown (Ok tt) H).
Defined.

Lemma cleanup_idempotent_witness :
  _cleanup after_teardown = (Ok tt, after_teardown).
Proof.
  assert (H : _cleanup configured_after_setup = (Ok tt, after_teardown))
    by (vm_compute; reflexivity).
  exact (cleanup_idempotent configured_after_setup after_teardown H).
Defined.

Lemma cleanup_stops_at_first_refusal_witness :
  _cleanup protected_ca_state = (Raise (NameError "log"), protected_ca_state).
Proof.
  assert (H1 : Configuration.ssl_ca_cert (configuration protected_ca_state)
               = Some "/etc/kubernetes/pki/ca.crt")
    by reflexivity.
  assert (H2 : "/etc/kubernetes/pki/ca.crt" <> "") by discriminate.
  assert (H3 : fs protected_ca_state !! "/etc/kubernetes/pki/ca.crt"
               = Some (File "-----BEGIN CERTIFICATE-----" (Some EACCES)))
    by (vm_compute; reflexivity).
  assert (H4 : unlink_errno (File "-----BEGIN CERTIFICATE-----" (Some EACCES))
               = Some EACCES)
    by reflexivity.
  assert (H5 : EACCES <> ENOENT) by discriminate.
  exact (cleanup_stops_at_first_refusal protected_ca_state "/etc/kubernetes/pki/ca.crt"
           (File "-----BEGIN CERTIFICATE-----" (Some EACCES)) EACCES H1 H2 H3 H4 H5).
Defined.

Lemma cleanup_raises_only_NameError_witness :
  NameError "log" = NameError "log"
  /\ exists p f errno,
       Some p ∈ cleanup_paths (configuration protected_ca_state) /\ p <> ""
       /\ fs protected_ca_state !! p = Some f
       /\ unlink_errno f = Some errno /\ errno <> ENOENT.
Proof.
  assert (H : _cleanup protected_ca_state = (Raise (NameError "log"), protected_ca_state))
    by (vm_compute; reflexivity).
  exact (cleanup_raises_only_NameError protected_ca_state protected_ca_state
           (NameError "log") H).
Defined.

Lemma setup_url_materializes_witness :
  Configuration.host (configuration configured_after_setup)
  = Some "https://k8s.example.com:6443"
  /\ holds_decoded b64decode_py example_remove_errno
       (fs configured_state) (fs configured_after_setup)
       (Some "Q0EgQ0VSVA==")
       (Configuration.ssl_ca_cert (configuration configured_after_setup))
  /\ fs configured_state ⊆ fs configured_after_setup.
Proof.
  assert (Hkc : kubeconfig (self configured_state) = Attr None) by reflexivity.
  assert (Hcx : context (self configured_state) = Attr None) by reflexivity.
  assert (Hpath : truthy None && truthy None = false) by reflexivity.
  assert (H : _setup_connection b64decode_py "/tmp" example_random_name
                example_remove_errno example_load_kube_config configured_state
              = (Ok tt, configured_after_setup))
    by (vm_compute; reflexivity).
  destruct (setup_url_materializes b64decode_py "/tmp" example_random_name
              example_remove_errno example_load_kube_config configured_state configured_after_setup
              None None Hkc Hcx Hpath H)
    as (Hhost & _ & _ & Hca & _ & _ & Hsub & _).
  split; [exact Hhost|]. split; [exact Hca | exact Hsub].
Defined.

Lemma run_before_set_node_witness :
  example_run example_list_node initial_state
  = (Raise (AttributeError "kubeconfig"), initial_state).
Proof.
  exact (proj2 (run_before_set_node b64decode_py "/tmp" example_random_name
                  example_remove_errno example_load_kube_config example_list_node initial_state eq_refl)).
Defined.

Lemma run_keeps_worker_logs_once_witness :
  self after_404 = self configured_state
  /\ (log after_404 = log configured_state
      \/ exists e, caught e = true
                   /\ log after_404 = backend_error_entry e :: log configured_state).
Proof.
  assert (E : example_run example_list_node_404 configured_state = (Ok None, after_404))
    by (vm_compute; reflexivity).
  exact (run_keeps_worker_logs_once b64decode_py "/tmp" example_random_name
           example_remove_errno example_load_kube_config example_list_node_404
           configured_state after_404 (Ok None) E).
Defined.

Lemma run_url_path_keeps_existing_files_witness :
  fs (snd (example_run example_list_node busy_tmp_state)) !! "/tmp/kube-8c0z1kq2"
  = Some (File "data of another program" None).
Proof.
  assert (Hkc : kubeconfig (self busy_tmp_state) = Attr None) by reflexivity.
  assert (Hcx : context (self busy_tmp_state) = Attr None) by reflexivity.
  assert (Hpath : truthy None && truthy None = false) by reflexivity.
  assert (Hq : fs busy_tmp_state !! "/tmp/kube-8c0z1kq2"
               = Some (File "data of another program" None))
    by (vm_compute; reflexivity).
  exact (run_url_path_keeps_existing_files b64decode_py "/tmp" example_random_name
           example_remove_errno example_load_kube_config example_list_node
           busy_tmp_state (snd (example_run example_list_node busy_tmp_state))
           (fst (example_run example_list_node busy_tmp_state)) None None
           Hkc Hcx Hpath (surjective_pairing _)
           "/tmp/kube-8c0z1kq2" (File "data of another program" None) Hq).
Defined.

Lemma run_kubeconfig_takes_precedence_witness :
  example_run example_list_node (with_self example_worker_both kubeconfig_state)
  = (fst (example_run example_list_node kubeconfig_state),
     with_self example_worker_both
       (snd (example_run example_list_node kubeconfig_state))).
Proof.
  assert (Hkc : kubeconfig (self kubeconfig_state) = Attr (Some "/root/.kube/config"))
    by (vm_compute; reflexivity).
  assert (Hcx : context (self kubeconfig_state) = Attr (Some "production"))
    by (vm_compute; reflexivity).
  assert (Hk : "/root/.kube/config" <> "") by discriminate.
  assert (Hc : "production" <> "") by discriminate.
  assert (Hwk : kubeconfig example_worker_both = kubeconfig (self kubeconfig_state))
    by (vm_compute; reflexivity).
  assert (Hwc : context example_worker_both = context (self kubeconfig_state))
    by (vm_compute; reflexivity).
  exact (run_kubeconfig_takes_precedence b64decode_py "/tmp" example_random_name
           example_remove_errno example_load_kube_config example_list_node
           kubeconfig_state example_worker_both "/root/.kube/config" "production"
           Hkc Hcx Hk Hc Hwk Hwc).
Defined.
